(** * web3-signer: the authentication routes of the API

    A shallow embedding of [apps/api/src/routes/auth.ts] and
    [apps/api/src/utils/signature.ts] together with the library functions
    they call (Node's [crypto] hashes and the [otplib] authenticator), and
    the properties of the login / MFA state machine proved about it.

    Conventions.
    - JavaScript strings are Rocq [string]s.  Every string the routes
      inspect (addresses, hex digests, base32 secrets, tokens) is ASCII, and
      [toLowerCase] is the ASCII lower-casing; hashing a string hashes its
      bytes.
    - Bytes and machine words are [Z] with the wrap-around written out.
    - Prisma tables are finite maps keyed by their unique column.
    - A request handler is a function from the world it observes (clock,
      random bytes, session store outcome), the process and database state
      and the request to the new state and the response. *)

From Stdlib Require Import ZArith List Ascii String Lia Bool.
From stdpp Require Import base option list gmap strings.

Local Open Scope string_scope.
Local Open Scope Z_scope.

(** ** JavaScript strings *)

Module Js.

Definition is_upper (c : ascii) : bool :=
  let n := N_of_ascii c in ((65 <=? n) && (n <=? 90))%N.

Definition lower_char (c : ascii) : ascii :=
  if is_upper c then ascii_of_N (N_of_ascii c + 32) else c.

(** [String.prototype.toLowerCase] *)
Fixpoint toLowerCase (s : string) : string :=
  match s with
  | EmptyString => EmptyString
  | String c r => String (lower_char c) (toLowerCase r)
  end.

(** [s.substr(start, len)] for [start >= 0] *)
Fixpoint substr (start len : nat) (s : string) : string :=
  match start, s with
  | O, _ =>
      match len, s with
      | S l, String c r => String c (substr O l r)
      | _, _ => EmptyString
      end
  | S n, String _ r => substr n len r
  | S _, EmptyString => EmptyString
  end.

(** [s[i]]: the character at index [i], [undefined] out of range *)
Fixpoint char_at (i : nat) (s : string) : option ascii :=
  match s, i with
  | EmptyString, _ => None
  | String c _, O => Some c
  | String _ r, S n => char_at n r
  end.

Definition hex_value (c : ascii) : option Z :=
  let n := Z.of_N (N_of_ascii c) in
  if (48 <=? n) && (n <=? 57) then Some (n - 48)
  else if (97 <=? n) && (n <=? 102) then Some (n - 87)
  else if (65 <=? n) && (n <=? 70) then Some (n - 55)
  else None.

Fixpoint hex_prefix (acc : Z) (s : string) : Z :=
  match s with
  | EmptyString => acc
  | String c r =>
      match hex_value c with
      | Some d => hex_prefix (16 * acc + d) r
      | None => acc
      end
  end.

(** [parseInt(s, 16)] on a string of digits: the value of the longest
    prefix of hexadecimal digits, [NaN] ([None]) when there is none.  (Sign,
    white space and a [0x] prefix do not occur in the slices of a hex digest
    it is applied to.) *)
Definition parseInt16 (s : string) : option Z :=
  match s with
  | EmptyString => None
  | String c r =>
      match hex_value c with
      | Some d => Some (hex_prefix d r)
      | None => None
      end
  end.

(** Truthiness of an optional string / number property *)
Definition truthy_str (o : option string) : bool :=
  match o with
  | Some s => negb (String.eqb s "")
  | None => false
  end.

Definition truthy_num (o : option Z) : bool :=
  match o with
  | Some n => negb (n =? 0)
  | None => false
  end.

End Js.

(** ** Bytes *)

Module Bytes.

Definition of_string (s : string) : list Z :=
  List.map (fun c => Z.of_N (N_of_ascii c)) (list_ascii_of_string s).

Definition hex_digit (d : Z) : ascii :=
  if d <? 10 then ascii_of_N (Z.to_N (48 + d)) else ascii_of_N (Z.to_N (87 + d)).

(** [buf.toString('hex')] *)
Fixpoint to_hex (bs : list Z) : string :=
  match bs with
  | [] => EmptyString
  | b :: r => String (hex_digit (b / 16)) (String (hex_digit (b mod 16)) (to_hex r))
  end.

(** big-endian bytes of the low [8 * n] bits of [x] *)
Fixpoint be (n : nat) (x : Z) : list Z :=
  match n with
  | O => []
  | S m => (Z.shiftr x (8 * Z.of_nat m)) mod 256 :: be m x
  end.

Fixpoint from_be (bs : list Z) (acc : Z) : Z :=
  match bs with
  | [] => acc
  | b :: r => from_be r (acc * 256 + b)
  end.

Definition is_byte (b : Z) : Prop := 0 <= b < 256.

End Bytes.

(** ** 32-bit words shared by the two hash functions *)

Module Word32.

Definition wrap (x : Z) : Z := x mod 2 ^ 32.
Definition add (x y : Z) : Z := wrap (x + y).
Definition not (x : Z) : Z := Z.lxor x 0xffffffff.
Definition rotr (n x : Z) : Z := Z.lor (Z.shiftr x n) (wrap (Z.shiftl x (32 - n))).
Definition rotl (n x : Z) : Z := Z.lor (wrap (Z.shiftl x n)) (Z.shiftr x (32 - n)).

(** Merkle-Damgard padding with a 64-bit big-endian bit length *)
Definition pad (msg : list Z) : list Z :=
  let len := Z.of_nat (List.length msg) in
  let k := Z.to_nat ((55 - len) mod 64) in
  msg ++ 128 :: List.repeat 0 k ++ Bytes.be 8 (8 * len).

Fixpoint words (fuel : nat) (bs : list Z) : list Z :=
  match fuel, bs with
  | S f, a :: b :: c :: d :: r => Bytes.from_be [a; b; c; d] 0 :: words f r
  | _, _ => []
  end.

(** the message cut into 64-byte blocks, each as sixteen words *)
Fixpoint blocks (fuel : nat) (bs : list Z) : list (list Z) :=
  match fuel, bs with
  | S f, _ :: _ => words 16 (List.firstn 64 bs) :: blocks f (List.skipn 64 bs)
  | _, _ => []
  end.

Definition blocks_of (msg : list Z) : list (list Z) :=
  let p := pad msg in blocks (List.length p) p.

End Word32.

(** ** SHA-256 (FIPS 180-4), as computed by
    [crypto.createHash('sha256').update(s).digest()] *)

Module Sha256.
Import Word32.

(** The constants are fractional parts of roots of the first primes:
    [frac_root k p] is the first 32 bits of the fractional part of the
    [k]-th root of [p]. *)
Definition is_prime (n : Z) : bool :=
  List.forallb (fun d => negb (n mod Z.of_nat d =? 0)) (List.seq 2 (Z.to_nat n - 2)).

Definition primes (count : nat) : list Z :=
  List.firstn count (List.filter is_prime (List.map Z.of_nat (List.seq 2 400))).

Fixpoint root_bits (k : Z) (bits : nat) (n r : Z) : Z :=
  match bits with
  | O => r
  | S b =>
      let c := r + 2 ^ Z.of_nat b in
      if c ^ k <=? n then root_bits k b n c else root_bits k b n r
  end.

Definition frac_root (k p : Z) : Z :=
  root_bits k 40 (p * 2 ^ (32 * k)) 0 mod 2 ^ 32.

(** cube roots of the first sixty-four primes *)
Definition K : list Z := Eval vm_compute in List.map (frac_root 3) (primes 64).

Record state := State {
  ha : Z; hb : Z; hc : Z; hd : Z; he : Z; hf : Z; hg : Z; hh : Z }.

(** square roots of the first eight primes *)
Definition H0 : state :=
  Eval vm_compute in
    let r := List.map (frac_root 2) (primes 8) in
    State (List.nth 0 r 0) (List.nth 1 r 0) (List.nth 2 r 0) (List.nth 3 r 0)
          (List.nth 4 r 0) (List.nth 5 r 0) (List.nth 6 r 0) (List.nth 7 r 0).

Definition Ch (x y z : Z) := Z.lxor (Z.land x y) (Z.land (not x) z).
Definition Maj (x y z : Z) := Z.lxor (Z.lxor (Z.land x y) (Z.land x z)) (Z.land y z).
Definition Sigma0 x := Z.lxor (Z.lxor (rotr 2 x) (rotr 13 x)) (rotr 22 x).
Definition Sigma1 x := Z.lxor (Z.lxor (rotr 6 x) (rotr 11 x)) (rotr 25 x).
Definition sigma0 x := Z.lxor (Z.lxor (rotr 7 x) (rotr 18 x)) (Z.shiftr x 3).
Definition sigma1 x := Z.lxor (Z.lxor (rotr 17 x) (rotr 19 x)) (Z.shiftr x 10).

(** The message schedule, newest word first: [rev] holds W(t-1), W(t-2), ... *)
Fixpoint extend (n : nat) (rev : list Z) : list Z :=
  match n with
  | O => rev
  | S m =>
      let w := add (add (sigma1 (List.nth 1 rev 0)) (List.nth 6 rev 0))
                   (add (sigma0 (List.nth 14 rev 0)) (List.nth 15 rev 0)) in
      extend m (w :: rev)
  end.

Definition schedule (block : list Z) : list Z :=
  List.rev (extend 48 (List.rev block)).

Definition round (s : state) (kw : Z * Z) : state :=
  let t1 := add (add (add (hh s) (Sigma1 (he s))) (add (Ch (he s) (hf s) (hg s)) (fst kw))) (snd kw) in
  let t2 := add (Sigma0 (ha s)) (Maj (ha s) (hb s) (hc s)) in
  State (add t1 t2) (ha s) (hb s) (hc s) (add (hd s) t1) (he s) (hf s) (hg s).

Definition compress (s : state) (block : list Z) : state :=
  let r := List.fold_left round (List.combine K (schedule block)) s in
  State (add (ha s) (ha r)) (add (hb s) (hb r)) (add (hc s) (hc r)) (add (hd s) (hd r))
        (add (he s) (he r)) (add (hf s) (hf r)) (add (hg s) (hg r)) (add (hh s) (hh r)).

Definition output (s : state) : list Z :=
  Bytes.be 4 (ha s) ++ Bytes.be 4 (hb s) ++ Bytes.be 4 (hc s) ++ Bytes.be 4 (hd s) ++
  Bytes.be 4 (he s) ++ Bytes.be 4 (hf s) ++ Bytes.be 4 (hg s) ++ Bytes.be 4 (hh s).

Definition digest (msg : list Z) : list Z :=
  output (List.fold_left compress (blocks_of msg) H0).

(** [createHash('sha256').update(s).digest('hex')] *)
Definition hexdigest (s : string) : string :=
  Bytes.to_hex (digest (Bytes.of_string s)).

End Sha256.

(** ** SHA-1 and HMAC-SHA-1 (RFC 3174, RFC 2104): the digest [otplib] asks
    Node's [crypto.createHmac('sha1', key)] for *)

Module Sha1.
Import Word32.

Record state := State { h0 : Z; h1 : Z; h2 : Z; h3 : Z; h4 : Z }.

Definition init : state :=
  State 0x67452301 0xefcdab89 0x98badcfe 0x10325476 0xc3d2e1f0.

Fixpoint extend (n : nat) (rev : list Z) : list Z :=
  match n with
  | O => rev
  | S m =>
      let w := rotl 1 (Z.lxor (Z.lxor (List.nth 2 rev 0) (List.nth 7 rev 0))
                              (Z.lxor (List.nth 13 rev 0) (List.nth 15 rev 0))) in
      extend m (w :: rev)
  end.

Definition schedule (block : list Z) : list Z :=
  List.rev (extend 64 (List.rev block)).

Definition f (t b c d : Z) : Z :=
  if t <? 20 then Z.lor (Z.land b c) (Z.land (not b) d)
  else if t <? 40 then Z.lxor (Z.lxor b c) d
  else if t <? 60 then Z.lor (Z.lor (Z.land b c) (Z.land b d)) (Z.land c d)
  else Z.lxor (Z.lxor b c) d.

Definition k (t : Z) : Z :=
  if t <? 20 then 0x5a827999
  else if t <? 40 then 0x6ed9eba1
  else if t <? 60 then 0x8f1bbcdc
  else 0xca62c1d6.

Definition round (s : state) (tw : Z * Z) : state :=
  let t := fst tw in
  let temp := add (add (add (rotl 5 (h0 s)) (f t (h1 s) (h2 s) (h3 s)))
                       (add (h4 s) (snd tw))) (k t) in
  State temp (h0 s) (rotl 30 (h1 s)) (h2 s) (h3 s).

Definition compress (s : state) (block : list Z) : state :=
  let ts := List.map Z.of_nat (List.seq 0 80) in
  let r := List.fold_left round (List.combine ts (schedule block)) s in
  State (add (h0 s) (h0 r)) (add (h1 s) (h1 r)) (add (h2 s) (h2 r))
        (add (h3 s) (h3 r)) (add (h4 s) (h4 r)).

Definition output (s : state) : list Z :=
  Bytes.be 4 (h0 s) ++ Bytes.be 4 (h1 s) ++ Bytes.be 4 (h2 s) ++
  Bytes.be 4 (h3 s) ++ Bytes.be 4 (h4 s).

Definition digest (msg : list Z) : list Z :=
  output (List.fold_left compress (blocks_of msg) init).

Definition hmac (key msg : list Z) : list Z :=
  let key' := if (64 <? Z.of_nat (List.length key)) then digest key else key in
  let block := (key' ++ List.repeat 0 (64 - List.length key')%nat)%list in
  let ipad := List.map (Z.lxor 0x36) block in
  let opad := List.map (Z.lxor 0x5c) block in
  digest (opad ++ digest (ipad ++ msg))%list.

End Sha1.

(** ** The [otplib] authenticator

    [otplib] is a dependency of the API, not part of the repository; it is
    modelled by what it computes under its documented defaults: RFC 4226
    HOTP over HMAC-SHA-1 with 6 digits, RFC 6238 time steps of 30 seconds,
    base32 secrets, and [window: 0] unless [authenticator.options]
    overrides it. *)

Module Otplib.

Definition base32_value (c : ascii) : option Z :=
  let n := Z.of_N (N_of_ascii c) in
  if (65 <=? n) && (n <=? 90) then Some (n - 65)
  else if (50 <=? n) && (n <=? 55) then Some (n - 24)
  else None.

(** the key decoder: base32 text to bytes; it throws ([None]) on a
    character outside the alphabet *)
Fixpoint base32_decode (acc nbits : Z) (s : string) : option (list Z) :=
  match s with
  | EmptyString => Some []
  | String c r =>
      match base32_value c with
      | None => None
      | Some v =>
          let acc' := acc * 32 + v in
          let n' := nbits + 5 in
          if 8 <=? n' then
            match base32_decode (acc' mod 2 ^ (n' - 8)) (n' - 8) r with
            | Some bs => Some (Z.shiftr acc' (n' - 8) mod 256 :: bs)
            | None => None
            end
          else base32_decode acc' n' r
      end
  end.

Definition keyDecoder (secret : string) : option (list Z) :=
  base32_decode 0 0 secret.

Fixpoint decimal (n : nat) (x : Z) (acc : string) : string :=
  match n with
  | O => acc
  | S m => decimal m (x / 10) (String (ascii_of_N (Z.to_N (48 + x mod 10))) acc)
  end.

(** RFC 4226: dynamic truncation of the HMAC, six decimal digits, padded
    with zeros on the left *)
Definition hotpToken (key : list Z) (counter : Z) : string :=
  let d := Sha1.hmac key (Bytes.be 8 counter) in
  let offset := Z.to_nat (Z.land (List.nth 19 d 0) 0xf) in
  let binary :=
    Z.lor (Z.lor (Z.shiftl (Z.land (List.nth offset d 0) 0x7f) 24)
                 (Z.shiftl (List.nth (offset + 1) d 0) 16))
          (Z.lor (Z.shiftl (List.nth (offset + 2) d 0) 8)
                 (List.nth (offset + 3) d 0)) in
  decimal 6 (binary mod 1000000) "".

(** [Math.floor(epoch / step / 1000)] with [step = 30] *)
Definition totpCounter (epoch : Z) : Z := epoch / 30 / 1000.

Definition totpToken (key : list Z) (epoch : Z) : string :=
  hotpToken key (totpCounter epoch).

Definition totpCheck (token : string) (key : list Z) (epoch : Z) : bool :=
  String.eqb token (totpToken key epoch).

(** the epochs [epoch + direction * i * step * 1000] for [i = 1 .. w] *)
Fixpoint totpCheckByEpoch (w : nat) (direction : Z) (token : string)
    (key : list Z) (epoch : Z) : bool :=
  match w with
  | O => false
  | S m =>
      totpCheckByEpoch m direction token key epoch
      || totpCheck token key (epoch + direction * Z.of_nat w * 30 * 1000)
  end.

Definition totpCheckWithWindow (token : string) (key : list Z) (epoch : Z)
    (window : nat) : bool :=
  totpCheck token key epoch
  || totpCheckByEpoch window (-1) token key epoch
  || totpCheckByEpoch window 1 token key epoch.

(** The options object of the [authenticator] singleton: only [window] is
    ever assigned by the routes; an unset field falls back to the default. *)
Record options := Options { window : option nat }.

Definition defaultOptions : options := Options None.

(** [authenticator.options = opts]: the fields given override the ones
    held, the others are kept *)
Definition set_options (held opts : options) : options :=
  Options (match window opts with Some w => Some w | None => window held end).

Definition allOptions_window (o : options) : nat :=
  match window o with Some w => w | None => O end.

(** [authenticator.generate(secret)] at [Date.now() = epoch] *)
Definition generate (secret : string) (epoch : Z) : option string :=
  match keyDecoder secret with
  | Some key => Some (totpToken key epoch)
  | None => None
  end.

(** [authenticator.verify({ token, secret })] at [Date.now() = epoch];
    [None] when the key decoder throws *)
Definition verify (o : options) (token secret : string) (epoch : Z) : option bool :=
  match keyDecoder secret with
  | Some key => Some (totpCheckWithWindow token key epoch (allOptions_window o))
  | None => None
  end.

End Otplib.

(** ** JSON values: request bodies and response bodies *)

Module Json.

#[local] Set Warnings "-register-all".

Inductive value :=
| Null
| Bool (b : bool)
| Num (n : Z)
| Str (s : string)
| Arr (items : list value)
| Obj (fields : list (string * value)).

Fixpoint assoc (k : string) (fields : list (string * value)) : option value :=
  match fields with
  | [] => None
  | (k', v) :: r => if String.eqb k k' then Some v else assoc k r
  end.

(** [o.k]: [None] is [undefined] *)
Definition field (k : string) (o : value) : option value :=
  match o with
  | Obj fields => assoc k fields
  | _ => None
  end.

Definition has_field (k : string) (o : value) : bool :=
  match field k o with Some _ => true | None => false end.

(** [z.string()] on a property *)
Definition zstring (k : string) (o : value) : option string :=
  match field k o with
  | Some (Str s) => Some s
  | _ => None
  end.

(** [z.string().optional()] on a property: the outer [None] is a
    validation error, the inner one an absent property *)
Definition zstring_optional (k : string) (o : value) : option (option string) :=
  match field k o with
  | None => Some None
  | Some (Str s) => Some (Some s)
  | Some _ => None
  end.

End Json.

(** ** apps/api/src/routes/auth.ts: the MFA secret *)

Definition base32Chars : string := "ABCDEFGHIJKLMNOPQRSTUVWXYZ234567".

(** [secret += base32Chars[byte % 32]] for the byte at [hash.substr(i * 2, 2)];
    appending [undefined] appends the text "undefined" *)
Definition secret_step (hash : string) (secret : string) (i : nat) : string :=
  let appended :=
    match Js.parseInt16 (Js.substr (i * 2) 2 hash) with
    | Some byte =>
        match Js.char_at (Z.to_nat (byte mod 32)) base32Chars with
        | Some c => String c ""
        | None => "undefined"
        end
    | None => "undefined"
    end in
  secret ++ appended.

(** [generateMFASecret(address)], with [process.env.MFA_SERVER_SALT] as
    [env_salt] *)
Definition generateMFASecret (env_salt : option string) (address : string) : string :=
  let normalizedAddress := Js.toLowerCase address in
  let salt := if Js.truthy_str env_salt then default "" env_salt
              else "default-salt-change-this" in
  let input := normalizedAddress ++ ":" ++ salt in
  let hash := Sha256.hexdigest input in
  List.fold_left (secret_step hash) (List.seq 0 32) "".

(** [generateBonusPhrase()], given the bytes [crypto.randomBytes(16)] drew *)
Definition generateBonusPhrase (random : list Z) : string := Bytes.to_hex random.

(** ** The data store (prisma schema: users, auth, messages) *)

Record User := mkUser {
  user_id : Z;
  user_address : string;
  user_role : string }.

Record Auth := mkAuth {
  auth_mfa : bool;
  auth_awaitingMfa : bool;
  auth_mfaTimeoutTimestamp : option Z }.

Record Message := mkMessage {
  msg_id : Z;
  msg_userId : Z;
  msg_message : string;
  msg_signature : string;
  msg_signer : string;
  msg_valid : bool;
  msg_createdAt : Z }.

(** the columns of a [users] row besides its primary key *)
Record UserRow := mkUserRow {
  row_address : string;
  row_role : string }.

Definition user_of (id : Z) (r : UserRow) : User :=
  mkUser id (row_address r) (row_role r).

(** [users] is keyed by the primary key [id], [auth] by its unique
    [userId]; [messages] is kept newest first; [user_seq] is the last value
    the [SERIAL] column handed out. *)
Record Db := mkDb {
  users : gmap Z UserRow;
  auths : gmap Z Auth;
  messages : list Message;
  user_seq : Z }.

(** a user row with the relations the routes [include] *)
Record UserWith := mkUserWith {
  uw_user : User;
  uw_auth : option Auth;
  uw_messages : list Message }.

Module Prisma.

(** [messages: { take: 10, orderBy: { createdAt: 'desc' } }] *)
Definition recent_messages (db : Db) (uid : Z) : list Message :=
  List.firstn 10 (List.filter (fun m => msg_userId m =? uid) (messages db)).

Definition with_relations (db : Db) (u : User) : UserWith :=
  mkUserWith u (auths db !! user_id u) (recent_messages db (user_id u)).

(** [prisma.user.findUnique({ where: { id } })] *)
Definition user_findUnique_id (db : Db) (id : Z) : option UserWith :=
  (fun r => with_relations db (user_of id r)) <$> users db !! id.

(** [prisma.user.findUnique({ where: { address } })] *)
Definition user_findUnique_address (db : Db) (addr : string) : option UserWith :=
  (fun kr => with_relations db (user_of (fst kr) (snd kr))) <$>
    List.find (fun kr => String.eqb (row_address (snd kr)) addr)
              (map_to_list (users db)).

(** [prisma.user.create({ data: { address, auth: { create: { mfa: false,
    awaitingMfa: false } } } })]: [role] defaults to "user" *)
Definition user_create (db : Db) (addr : string) : Db * UserWith :=
  let id := user_seq db + 1 in
  let r := mkUserRow addr "user" in
  let a := mkAuth false false None in
  let db' := mkDb (<[id := r]> (users db)) (<[id := a]> (auths db)) (messages db) id in
  (db', with_relations db' (user_of id r)).

(** [prisma.auth.update({ where: { userId }, data })]; it throws ([None])
    when there is no such row *)
Definition auth_update (db : Db) (userId : Z) (data : Auth -> Auth) : option Db :=
  match auths db !! userId with
  | Some a => Some (mkDb (users db) (<[userId := data a]> (auths db)) (messages db) (user_seq db))
  | None => None
  end.

End Prisma.

(** ** The session ([SessionData] in types/index.ts) *)

Record Session := mkSession {
  userId : option Z;
  address : option string;
  pendingUserId : option Z;
  mfaBonusPhrase : option string }.

Definition empty_session : Session := mkSession None None None None.

(** ** Responses *)

Record Response := mkResponse {
  status : Z;
  body : Json.value }.

(** [res.status(code).json({ error, status: code, success: false })] *)
Definition error_response (code : Z) (error : string) : Response :=
  mkResponse code
    (Json.Obj [("error", Json.Str error); ("status", Json.Num code); ("success", Json.Bool false)]).

(** [res.json(body)] *)
Definition ok_response (body : Json.value) : Response := mkResponse 200 body.

Definition message_json (m : Message) : Json.value :=
  Json.Obj [("id", Json.Num (msg_id m)); ("message", Json.Str (msg_message m));
            ("signature", Json.Str (msg_signature m)); ("signer", Json.Str (msg_signer m));
            ("valid", Json.Bool (msg_valid m)); ("createdAt", Json.Num (msg_createdAt m))].

(** What a handler observes of the outside world while it runs: the clock
    ([Date.now()], in milliseconds), the bytes [crypto.randomBytes(16)]
    returns, and whether the session store reports an error to the
    [save] / [destroy] callback. *)
Record World := mkWorld {
  now : Z;
  randomBytes : list Z;
  storeError : bool }.

(** The state a request runs against: the database, the request's session,
    and the options of the process-wide [authenticator] singleton. *)
Record State := mkState {
  db : Db;
  session : Session;
  authenticator_options : Otplib.options }.

Definition set_userId (v : option Z) (s : Session) : Session :=
  mkSession v (address s) (pendingUserId s) (mfaBonusPhrase s).
Definition set_address (v : option string) (s : Session) : Session :=
  mkSession (userId s) v (pendingUserId s) (mfaBonusPhrase s).
Definition set_pendingUserId (v : option Z) (s : Session) : Session :=
  mkSession (userId s) (address s) v (mfaBonusPhrase s).
Definition set_mfaBonusPhrase (v : option string) (s : Session) : Session :=
  mkSession (userId s) (address s) (pendingUserId s) v.

Definition with_db (d : Db) (st : State) : State :=
  mkState d (session st) (authenticator_options st).
Definition with_session (s : Session) (st : State) : State :=
  mkState (db st) s (authenticator_options st).
Definition with_options (o : Otplib.options) (st : State) : State :=
  mkState (db st) (session st) o.

(** the outcome of a call that may throw *)
Inductive result (A : Type) :=
| Returned (a : A)
| Thrown (message : string).
Arguments Returned {A} a.
Arguments Thrown {A} message.

Section Api.

(** The collaborators outside the repository.
    - [ethers_recover message signature] is
      [ethers.recoverAddress(ethers.hashMessage(message), signature)]: the
      recovered address, or [None] when the library throws.  The signature
      is the JSON value received ([/auth/mfa/initialize] does not validate
      its body; an absent property is passed as [Json.Null]).
    - [MFA_SERVER_SALT] is [process.env.MFA_SERVER_SALT].
    - [authenticator_keyuri] and [QRCode_toDataURL] build and render the
      provisioning URI; the renderer may reject ([None]). *)
Variable ethers_recover : string -> Json.value -> option string.
Variable MFA_SERVER_SALT : option string.
Variable authenticator_keyuri : string -> string -> string -> string.
Variable QRCode_toDataURL : string -> option string.

(** *** apps/api/src/utils/signature.ts *)

Definition recoverAddress (message : string) (signature : Json.value) : result string :=
  match ethers_recover message signature with
  | Some recoveredAddress => Returned recoveredAddress
  | None => Thrown "Failed to recover address from signature"
  end.

Definition verifySignature (message : string) (signature : Json.value)
    (expectedAddress : string) : bool :=
  match recoverAddress message signature with
  | Returned recoveredAddress =>
      String.eqb (Js.toLowerCase recoveredAddress) (Js.toLowerCase expectedAddress)
  | Thrown _ => false
  end.

(** *** apps/api/src/middleware/auth.ts *)

(** [requireAuth]: the handler [next] runs only when [req.session.userId]
    is truthy, and reads it *)
Definition requireAuth (st : State) (next : Z -> State * Response) : State * Response :=
  match userId (session st) with
  | Some id =>
      if negb (Js.truthy_num (Some id))
      then (st, error_response 401 "Authentication required")
      else next id
  | None => (st, error_response 401 "Authentication required")
  end.

(** *** apps/api/src/routes/auth.ts *)

Definition LoginSchema_parse (b : Json.value) : option (string * string * string) :=
  match Json.zstring "message" b, Json.zstring "signature" b, Json.zstring "address" b with
  | Some message, Some signature, Some address => Some (message, signature, address)
  | _, _, _ => None
  end.

Definition MFAVerifySchema_parse (b : Json.value) : option (string * option string) :=
  match Json.zstring "mfa_code" b, Json.zstring_optional "mfa_bonus_phrase" b with
  | Some mfa_code, Some mfa_bonus_phrase => Some (mfa_code, mfa_bonus_phrase)
  | _, _ => None
  end.

Definition MFACodeSchema_parse (b : Json.value) : option string :=
  Json.zstring "mfa_code" b.

Definition user_json (u : User) : Json.value :=
  Json.Obj [("id", Json.Num (user_id u)); ("address", Json.Str (user_address u));
            ("role", Json.Str (user_role u))].

Definition user_mfa_json (u : User) (mfa : bool) : Json.value :=
  Json.Obj [("id", Json.Num (user_id u)); ("address", Json.Str (user_address u));
            ("role", Json.Str (user_role u)); ("mfa", Json.Bool mfa)].

Definition user_auth_mfa (uw : UserWith) : bool :=
  match uw_auth uw with Some a => auth_mfa a | None => false end.

(** POST /auth *)
Definition post_auth (w : World) (st : State) (b : Json.value) : State * Response :=
  match LoginSchema_parse b with
  | None => (st, error_response 500 "Login failed")
  | Some (message, signature, address) =>
      if negb (String.eqb message "login")
      then (st, error_response 400 "Invalid login message")
      else
        let isValid := verifySignature message (Json.Str signature) address in
        if negb isValid
        then (st, error_response 401 "Invalid signature")
        else
          let normalizedAddress := Js.toLowerCase address in
          let '(db1, user) :=
            match Prisma.user_findUnique_address (db st) normalizedAddress with
            | Some user => (db st, user)
            | None => Prisma.user_create (db st) normalizedAddress
            end in
          let uid := user_id (uw_user user) in
          if user_auth_mfa user then
            let bonusPhrase := generateBonusPhrase (randomBytes w) in
            let mfaTimeout := now w + 5 * 60 * 1000 in
            match Prisma.auth_update db1 uid
                    (fun a => mkAuth (auth_mfa a) (auth_awaitingMfa a) (Some mfaTimeout)) with
            | None => (with_db db1 st, error_response 500 "Login failed")
            | Some db2 =>
                let s1 := set_pendingUserId (Some uid) (session st) in
                let s2 := set_mfaBonusPhrase (Some bonusPhrase) s1 in
                let st' := with_session s2 (with_db db2 st) in
                if storeError w
                then (st', error_response 500 "Failed to save session")
                else (st', ok_response (Json.Obj
                        [("success", Json.Bool true); ("mfa", Json.Bool true);
                         ("mfa_bonus_phrase", Json.Str bonusPhrase)]))
            end
          else
            let s1 := set_userId (Some uid) (session st) in
            let s2 := set_address (Some (user_address (uw_user user))) s1 in
            let st' := with_session s2 (with_db db1 st) in
            if storeError w
            then (st', error_response 500 "Failed to save session")
            else (st', ok_response (Json.Obj
                    [("success", Json.Bool true); ("mfa", Json.Bool false);
                     ("user", user_json (uw_user user));
                     ("messages", Json.Arr (List.map message_json (uw_messages user)))]))
  end.

(** GET /auth *)
Definition get_auth (st : State) : State * Response :=
  requireAuth st (fun sessionUserId =>
    match Prisma.user_findUnique_id (db st) sessionUserId with
    | None => (st, error_response 404 "User not found")
    | Some user =>
        (st, ok_response (Json.Obj
               [("success", Json.Bool true);
                ("user", user_mfa_json (uw_user user) (user_auth_mfa user));
                ("messages", Json.Arr (List.map message_json (uw_messages user)))]))
    end).

(** POST /auth/logout *)
Definition post_logout (w : World) (st : State) : State * Response :=
  if storeError w
  then (st, error_response 500 "Logout failed")
  else (with_session empty_session st,
        ok_response (Json.Obj [("success", Json.Bool true);
                               ("message", Json.Str "Logged out successfully")])).

Definition is_enableMFA (message : option Json.value) : bool :=
  match message with
  | Some (Json.Str m) => String.eqb m "enableMFA"
  | _ => false
  end.

(** POST /auth/mfa/initialize *)
Definition post_mfa_initialize (w : World) (st : State) (b : Json.value) : State * Response :=
  requireAuth st (fun sessionUserId =>
    let message := Json.field "message" b in
    let signature := default Json.Null (Json.field "signature" b) in
    if negb (is_enableMFA message)
    then (st, error_response 400 "Invalid MFA enablement message")
    else
      match Prisma.user_findUnique_id (db st) sessionUserId with
      | None => (st, error_response 404 "User not found")
      | Some user =>
          let u := uw_user user in
          let isValid := verifySignature "enableMFA" signature (user_address u) in
          if negb isValid
          then (st, error_response 401 "Invalid signature")
          else
            let failed := (st, error_response 500 "Failed to initialize MFA") in
            let secret := generateMFASecret MFA_SERVER_SALT (user_address u) in
            let otpauth := authenticator_keyuri (user_address u) "CAT Web3Signer" secret in
            match QRCode_toDataURL otpauth with
            | None => failed
            | Some qrCode =>
                match Otplib.generate secret (now w) with
                | None => failed
                | Some checkToken =>
                    match Otplib.verify (authenticator_options st) checkToken secret (now w) with
                    | None => failed
                    | Some checkTokenPass =>
                        (* a failed self-check is only logged *)
                        match Prisma.auth_update (db st) (user_id u)
                                (fun a => mkAuth (auth_mfa a) true (auth_mfaTimeoutTimestamp a)) with
                        | None => failed
                        | Some db' =>
                            (with_db db' st,
                             ok_response (Json.Obj [("success", Json.Bool true);
                                                    ("qrCode", Json.Str qrCode)]))
                        end
                    end
                end
            end
      end).

(** POST /auth/mfa/verify *)
Definition post_mfa_verify (w : World) (st : State) (b : Json.value) : State * Response :=
  requireAuth st (fun sessionUserId =>
    let failed := (st, error_response 500 "Failed to verify MFA") in
    match MFACodeSchema_parse b with
    | None => failed
    | Some mfa_code =>
        match Prisma.user_findUnique_id (db st) sessionUserId with
        | Some (mkUserWith u (Some auth) _) =>
            if negb (auth_awaitingMfa auth)
            then (st, error_response 400 "MFA setup not initiated")
            else
              let secret := generateMFASecret MFA_SERVER_SALT (user_address u) in
              match Otplib.verify (authenticator_options st) mfa_code secret (now w) with
              | None => failed
              | Some isValid =>
                  if negb isValid
                  then (st, error_response 401 "Invalid MFA code")
                  else
                    match Prisma.auth_update (db st) (user_id u)
                            (fun a => mkAuth true false (auth_mfaTimeoutTimestamp a)) with
                    | None => failed
                    | Some db' =>
                        (with_db db' st,
                         ok_response (Json.Obj [("success", Json.Bool true);
                                                ("message", Json.Str "MFA enabled successfully")]))
                    end
              end
        | _ => (st, error_response 404 "User not found")
        end
    end).

(** [a !== b] on optional strings *)
Definition strict_ne (a b : option string) : bool :=
  match a, b with
  | Some x, Some y => negb (String.eqb x y)
  | None, None => false
  | _, _ => true
  end.

(** [timestamp && new Date() > timestamp] *)
Definition timed_out (w : World) (timestamp : option Z) : bool :=
  match timestamp with
  | Some t => t <? now w
  | None => false
  end.

(** POST /auth/mfa *)
Definition post_mfa (w : World) (st : State) (b : Json.value) : State * Response :=
  match MFAVerifySchema_parse b with
  | None => (st, error_response 500 "MFA authentication failed")
  | Some (mfa_code, mfa_bonus_phrase) =>
      if negb (Js.truthy_num (pendingUserId (session st)))
         || negb (Js.truthy_str (mfaBonusPhrase (session st)))
      then (st, error_response 401 "No pending MFA authentication")
      else if strict_ne mfa_bonus_phrase (mfaBonusPhrase (session st))
      then (st, error_response 401 "Invalid bonus phrase")
      else
        match Prisma.user_findUnique_id (db st) (default 0 (pendingUserId (session st))) with
        | Some (mkUserWith u (Some auth) msgs) =>
            if timed_out w (auth_mfaTimeoutTimestamp auth) then
              let s1 := set_pendingUserId None (session st) in
              let s2 := set_mfaBonusPhrase None s1 in
              (with_session s2 st,
               error_response 401 "MFA window expired. Please login again.")
            else
              let secret := generateMFASecret MFA_SERVER_SALT (user_address u) in
              let st1 := with_options
                           (Otplib.set_options (authenticator_options st)
                                               (Otplib.Options (Some 2%nat))) st in
              match Otplib.verify (authenticator_options st1) mfa_code secret (now w) with
              | None => (st1, error_response 500 "MFA authentication failed")
              | Some isValid =>
                  if negb isValid
                  then (st1, error_response 401 "Invalid MFA code")
                  else
                    let s1 := set_userId (Some (user_id u)) (session st1) in
                    let s2 := set_address (Some (user_address u)) s1 in
                    let s3 := set_pendingUserId None s2 in
                    let s4 := set_mfaBonusPhrase None s3 in
                    let st2 := with_session s4 st1 in
                    match Prisma.auth_update (db st2) (user_id u)
                            (fun a => mkAuth (auth_mfa a) (auth_awaitingMfa a) None) with
                    | None => (st2, error_response 500 "MFA authentication failed")
                    | Some db' =>
                        (with_db db' st2,
                         ok_response (Json.Obj
                           [("success", Json.Bool true);
                            ("user", user_mfa_json u (auth_mfa auth));
                            ("messages", Json.Arr (List.map message_json msgs))]))
                    end
              end
        | _ => (st, error_response 404 "User not found")
        end
  end.

(** *** The operations of the auth state machine and the router *)

Inductive Request :=
| Login (b : Json.value)
| GetCurrentUser
| Logout
| InitializeMfaEnrollment (b : Json.value)
| CompleteMfaEnrollment (b : Json.value)
| CompleteMfaLogin (b : Json.value).

Definition handle (w : World) (st : State) (r : Request) : State * Response :=
  match r with
  | Login b => post_auth w st b
  | GetCurrentUser => get_auth st
  | Logout => post_logout w st
  | InitializeMfaEnrollment b => post_mfa_initialize w st b
  | CompleteMfaEnrollment b => post_mfa_verify w st b
  | CompleteMfaLogin b => post_mfa w st b
  end.

(** a sequence of requests, each with the world it runs in, threaded
    through the state; the responses come back in order *)
Fixpoint run (st : State) (rs : list (World * Request)) : State * list Response :=
  match rs with
  | [] => (st, [])
  | (w, r) :: rest =>
      let '(st1, resp) := handle w st r in
      let '(st2, resps) := run st1 rest in
      (st2, resp :: resps)
  end.

End Api.

(** ** Session states *)

(** the session is in the Pending state, as [POST /auth/mfa] tests it *)
Definition in_pending_state (s : Session) : bool :=
  Js.truthy_num (pendingUserId s) && Js.truthy_str (mfaBonusPhrase s).

(** the session holds the Pending fields *)
Definition holds_pending_fields (s : Session) : bool :=
  match pendingUserId s, mfaBonusPhrase s with
  | Some _, Some _ => true
  | _, _ => false
  end.

(** the session holds the Authenticated fields *)
Definition holds_authenticated_fields (s : Session) : bool :=
  match userId s, address s with
  | Some _, Some _ => true
  | _, _ => false
  end.

(** the letters A-Z and the digits 2-7 *)
Definition is_base32_char (c : ascii) : bool :=
  let n := Z.of_N (N_of_ascii c) in
  ((65 <=? n) && (n <=? 90)) || ((50 <=? n) && (n <=? 55)).

(** [mfaTimeoutTimestamp] of the auth row of user [uid] *)
Definition mfaTimeoutTimestamp_of (d : Db) (uid : Z) : option Z :=
  a ← auths d !! uid; auth_mfaTimeoutTimestamp a.

(** ** Fixtures: a test wallet, its accounts and the requests it sends *)

Module Fixture.

Definition walletAddress : string := "0xAbC0000000000000000000000000000000000001".

(** the test wallet's signature of a message, and the recovery that
    accepts exactly those *)
Definition sign (message : string) : string := "signed:" ++ message.

Definition recover (message : string) (signature : Json.value) : option string :=
  match signature with
  | Json.Str s => if String.eqb s (sign message) then Some walletAddress else None
  | _ => None
  end.

Definition salt : option string := Some "test-salt".

Definition keyuri (accountName issuer secret : string) : string :=
  "otpauth://totp/" ++ issuer ++ ":" ++ accountName ++ "?secret=" ++ secret.

Definition toDataURL (uri : string) : option string :=
  Some ("data:image/png;base64," ++ uri).

Definition user1 : UserRow := mkUserRow (Js.toLowerCase walletAddress) "user".

(** one user, with the given auth row *)
Definition db_with (a : Auth) : Db := mkDb {[ 1 := user1 ]} {[ 1 := a ]} [] 1.

Definition empty_db : Db := mkDb ∅ ∅ [] 0.

Definition authenticated : Session :=
  mkSession (Some 1) (Some (Js.toLowerCase walletAddress)) None None.

Definition bonusPhrase : string := "000102030405060708090a0b0c0d0e0f".

Definition pending : Session := mkSession None None (Some 1) (Some bonusPhrase).

(** 2023-11-14T22:13:20Z *)
Definition t0 : Z := 1700000000000.

Definition world (t : Z) : World :=
  mkWorld t [0; 1; 2; 3; 4; 5; 6; 7; 8; 9; 10; 11; 12; 13; 14; 15] false.

Definition login_body (message signature address : string) : Json.value :=
  Json.Obj [("message", Json.Str message); ("signature", Json.Str signature);
            ("address", Json.Str address)].

Definition sign_body (message signature : string) : Json.value :=
  Json.Obj [("message", Json.Str message); ("signature", Json.Str signature)].

Definition code_body (mfa_code : string) : Json.value :=
  Json.Obj [("mfa_code", Json.Str mfa_code)].

Definition mfa_body (mfa_code mfa_bonus_phrase : string) : Json.value :=
  Json.Obj [("mfa_code", Json.Str mfa_code); ("mfa_bonus_phrase", Json.Str mfa_bonus_phrase)].

Definition secret : string := generateMFASecret salt walletAddress.

(** the code an authenticator app shows at time [t] *)
Definition code_at (t : Z) : string := default "" (Otplib.generate secret t).

End Fixture.

(** ** Definitions used to state the properties of the secret *)

(** the character the loop of [generateMFASecret] appends for a byte *)
Definition base32_of_byte (b : Z) : ascii :=
  default "A"%char (Js.char_at (Z.to_nat (b mod 32)) base32Chars).

(** [process.env.MFA_SERVER_SALT || 'default-salt-change-this'] *)
Definition mfa_salt (env_salt : option string) : string :=
  if Js.truthy_str env_salt then default "" env_salt else "default-salt-change-this".

Arguments generateMFASecret : simpl never.
Arguments Otplib.verify : simpl never.
Arguments Otplib.generate : simpl never.
Arguments Sha256.hexdigest : simpl never.

(** ** apps/api/src/utils/signature.ts: the remaining helpers *)

(** [formatAddress(address)] *)
Definition formatAddress (address : string) : string :=
  let address := if negb (String.prefix "0x" address) then "0x" ++ address else address in
  Js.toLowerCase address.

(** an entry of the array [verifyMultipleSignatures] takes, and of the one
    it returns *)
Record SignatureEntry := mkSignatureEntry {
  entry_message : string;
  entry_signature : string;
  entry_address : option string }.

Record SignatureResult := mkSignatureResult {
  result_isValid : bool;
  result_signer : string;
  result_message : string }.

Section SignatureBatch.

Variable ethers_recover : string -> Json.value -> option string.

(** [verifyMultipleSignatures(signatures)]: [Promise.all] keeps the order of
    the entries *)
Definition verifyMultipleSignatures (signatures : list SignatureEntry)
    : list SignatureResult :=
  List.map
    (fun e =>
       match recoverAddress ethers_recover (entry_message e) (Json.Str (entry_signature e)) with
       | Returned signer =>
           let isValid :=
             if Js.truthy_str (entry_address e)
             then verifySignature ethers_recover (entry_message e)
                    (Json.Str (entry_signature e)) (default "" (entry_address e))
             else true in
           mkSignatureResult isValid signer (entry_message e)
       | Thrown _ => mkSignatureResult false "" (entry_message e)
       end)
    signatures.

End SignatureBatch.

(** ** The signature routes ([/verify-signature], [/verify-signature-multi]) *)

(** the state of the auth routes together with the last value the [SERIAL]
    column of [messages] handed out *)
Record Store := mkStore {
  store_state : State;
  message_seq : Z }.

(** what the routes pass to [prisma.message.create] *)
Record MessageData := mkMessageData {
  data_userId : Z;
  data_message : string;
  data_signature : string;
  data_signer : string;
  data_valid : bool }.

(** [prisma.message.create({ data })] at time [t]: the row gets the next id
    and [createdAt = t] *)
Definition message_create (t : Z) (s : Store) (d : MessageData) : Store :=
  let id := message_seq s + 1 in
  let m := mkMessage id (data_userId d) (data_message d) (data_signature d)
                     (data_signer d) (data_valid d) t in
  let st := store_state s in
  let d' := mkDb (users (db st)) (auths (db st)) (m :: messages (db st)) (user_seq (db st)) in
  mkStore (with_db d' st) id.

(** [prisma.message.createMany({ data })] *)
Definition message_createMany (t : Z) (s : Store) (ds : list MessageData) : Store :=
  List.fold_left (message_create t) ds s.

Definition dquote : string := String (ascii_of_nat 34) EmptyString.

Section SignatureRoutes.

Variable ethers_recover : string -> Json.value -> option string.

(** [requireAuth] in front of a handler of these routes *)
Definition requireAuthStore (s : Store) (next : Z -> Store * Response) : Store * Response :=
  match userId (session (store_state s)) with
  | Some id =>
      if negb (Js.truthy_num (Some id))
      then (s, error_response 401 "Authentication required")
      else next id
  | None => (s, error_response 401 "Authentication required")
  end.

Definition VerifySignatureSchema_parse (b : Json.value) : option (string * string) :=
  match Json.zstring "message" b, Json.zstring "signature" b with
  | Some message, Some signature => Some (message, signature)
  | _, _ => None
  end.

Fixpoint VerifySignatureMultiSchema_items (items : list Json.value)
    : option (list (string * string)) :=
  match items with
  | [] => Some []
  | item :: rest =>
      match VerifySignatureSchema_parse item, VerifySignatureMultiSchema_items rest with
      | Some ms, Some r => Some (ms :: r)
      | _, _ => None
      end
  end.

Definition VerifySignatureMultiSchema_parse (b : Json.value)
    : option (list (string * string)) :=
  match b with
  | Json.Arr items => VerifySignatureMultiSchema_items items
  | _ => None
  end.

(** POST /verify-signature *)
Definition post_verify_signature (w : World) (s : Store) (b : Json.value) : Store * Response :=
  requireAuthStore s (fun sessionUserId =>
    let failed := (s, error_response 400 "Failed to verify signature") in
    match VerifySignatureSchema_parse b with
    | None => failed
    | Some (message, signature) =>
        match recoverAddress ethers_recover message (Json.Str signature) with
        | Thrown _ => failed
        | Returned signer =>
            let isValid := verifySignature ethers_recover message (Json.Str signature) signer in
            let s' :=
              if Js.truthy_num (Some sessionUserId)
              then message_create (now w) s
                     (mkMessageData sessionUserId message signature signer isValid)
              else s in
            (s', ok_response (Json.Obj
                   [("success", Json.Bool true); ("isValid", Json.Bool isValid);
                    ("signer", Json.Str signer); ("originalMessage", Json.Str message)]))
        end
    end).

(** the verification loop of the batch route: the results in order, or the
    response of the first entry that fails *)
Fixpoint verify_all (signatures : list (string * string))
    : Response + list (string * string * string * bool) :=
  match signatures with
  | [] => inr []
  | (message, signature) :: rest =>
      match recoverAddress ethers_recover message (Json.Str signature) with
      | Thrown _ =>
          inl (error_response 400
                 ("Failed to verify signature for message: " ++ dquote ++ message ++ dquote))
      | Returned signer =>
          let isValid := verifySignature ethers_recover message (Json.Str signature) signer in
          if negb isValid
          then inl (error_response 400
                      ("Invalid signature for message: " ++ dquote ++ message ++ dquote))
          else
            match verify_all rest with
            | inl response => inl response
            | inr results => inr ((message, signature, signer, isValid) :: results)
            end
      end
  end.

Definition result_json (r : string * string * string * bool) : Json.value :=
  let '(message, _, signer, valid) := r in
  Json.Obj [("isValid", Json.Bool valid); ("signer", Json.Str signer);
            ("originalMessage", Json.Str message)].

Definition result_data (sessionUserId : Z) (r : string * string * string * bool)
    : MessageData :=
  let '(message, signature, signer, valid) := r in
  mkMessageData sessionUserId message signature signer valid.

(** POST /verify-signature-multi *)
Definition post_verify_signature_multi (w : World) (s : Store) (b : Json.value)
    : Store * Response :=
  requireAuthStore s (fun sessionUserId =>
    match VerifySignatureMultiSchema_parse b with
    | None => (s, error_response 400 "Failed to verify signatures")
    | Some signatures =>
        if (List.length signatures =? 0)%nat
        then (s, error_response 400 "No signatures provided")
        else
          match verify_all signatures with
          | inl response => (s, response)
          | inr verificationResults =>
              let s' :=
                if Js.truthy_num (Some sessionUserId)
                then message_createMany (now w) s
                       (List.map (result_data sessionUserId) verificationResults)
                else s in
              (s', ok_response (Json.Obj
                     [("success", Json.Bool true);
                      ("results", Json.Arr (List.map result_json verificationResults));
                      ("totalVerified",
                       Json.Num (Z.of_nat (List.length verificationResults)))]))
          end
    end).

End SignatureRoutes.

(** ** Invariants of the data store and of the session *)

(** The constraints of the schema the routes rely on: ids come from the
    sequence and start at 1, addresses are stored lower-cased and are unique
    ([users_address_key]), and every user has its auth row. *)
Record db_inv (d : Db) : Prop := mk_db_inv {
  inv_seq : 0 <= user_seq d;
  inv_ids : forall id r, users d !! id = Some r -> 1 <= id <= user_seq d;
  inv_lower : forall id r, users d !! id = Some r ->
                Js.toLowerCase (row_address r) = row_address r;
  inv_unique : forall i j ri rj,
                 users d !! i = Some ri -> users d !! j = Some rj ->
                 row_address ri = row_address rj -> i = j;
  inv_auth : forall id r, users d !! id = Some r -> is_Some (auths d !! id) }.

(** the session's Authenticated and Pending fields refer to rows of the
    store *)
Definition session_inv (d : Db) (s : Session) : Prop :=
  (forall id, userId s = Some id ->
     exists r, users d !! id = Some r /\ address s = Some (row_address r))
  /\ (forall id, pendingUserId s = Some id -> is_Some (users d !! id)).

(** the rows [createMany] stores for [ds] when the sequence stands at [seq],
    oldest first *)
Fixpoint stored_rows (t seq : Z) (ds : list MessageData) : list Message :=
  match ds with
  | [] => []
  | d :: rest =>
      mkMessage (seq + 1) (data_userId d) (data_message d) (data_signature d)
                (data_signer d) (data_valid d) t
      :: stored_rows t (seq + 1) rest
  end.

Definition state_inv (st : State) : Prop :=
  db_inv (db st) /\ session_inv (db st) (session st).

(** a freshly migrated store, a new session and a freshly started process *)
Definition initial_state : State :=
  mkState (mkDb ∅ ∅ [] 0) empty_session Otplib.defaultOptions.

(** ** apps/api/src/routes/messages.ts: deleting a message *)

Module PrismaMessage.

(** [prisma.message.findFirst({ where: { id, userId } })] *)
Definition findFirst (d : Db) (id uid : Z) : option Message :=
  List.find (fun m => (msg_id m =? id) && (msg_userId m =? uid)) (messages d).

(** [prisma.message.delete({ where: { id } })]; it throws ([None]) when
    there is no such row *)
Definition delete (d : Db) (id : Z) : option Db :=
  if List.existsb (fun m => msg_id m =? id) (messages d)
  then Some (mkDb (users d) (auths d)
                  (List.filter (fun m => negb (msg_id m =? id)) (messages d))
                  (user_seq d))
  else None.

End PrismaMessage.

Section MessageRoutes.

(** [parseInt(req.params.id)]: [None] is [NaN] *)
Variable parseInt : string -> option Z.

(** DELETE /messages/:id *)
Definition delete_message (st : State) (id_param : string) : State * Response :=
  requireAuth st (fun sessionUserId =>
    match parseInt id_param with
    | None => (st, error_response 400 "Invalid message ID")
    | Some messageId =>
        match PrismaMessage.findFirst (db st) messageId sessionUserId with
        | None => (st, error_response 404 "Message not found")
        | Some message =>
            match PrismaMessage.delete (db st) messageId with
            | None => (st, error_response 500 "Failed to delete message")
            | Some d' =>
                (with_db d' st,
                 ok_response (Json.Obj [("success", Json.Bool true);
                                        ("message", Json.Str "Message deleted successfully")]))
            end
        end
    end).

End MessageRoutes.

(** * Test vectors *)

Example sha256_abc :
  Sha256.hexdigest "abc"
  = "ba7816bf8f01cfea414140de5dae2223b00361a396177a9cb410ff61f20015ad".
Proof. vm_compute. reflexivity. Qed.

Example sha256_two_blocks :
  Sha256.hexdigest "abcdbcdecdefdefgefghfghighijhijkijkljklmklmnlmnomnopnopq"
  = "248d6a61d20638b8e5c026930c3e6039a33ce45964ff2167f6ecedd419db06c1".
Proof. vm_compute. reflexivity. Qed.

Example sha1_abc :
  Bytes.to_hex (Sha1.digest (Bytes.of_string "abc"))
  = "a9993e364706816aba3e25717850c26c9cd0d89d".
Proof. vm_compute. reflexivity. Qed.

Example hmac_sha1_rfc2202_2 :
  Bytes.to_hex (Sha1.hmac (Bytes.of_string "Jefe")
                          (Bytes.of_string "what do ya want for nothing?"))
  = "effcdf6ae5eb2fa2d27416d5f184df9c259a7c79".
Proof. vm_compute. reflexivity. Qed.

(** RFC 6238, appendix B (SHA-1 rows, last six digits) *)
Example totp_rfc6238_59 :
  Otplib.generate "GEZDGNBVGY3TQOJQGEZDGNBVGY3TQOJQ" 59000 = Some "287082".
Proof. vm_compute. reflexivity. Qed.

Example totp_rfc6238_1111111109 :
  Otplib.generate "GEZDGNBVGY3TQOJQGEZDGNBVGY3TQOJQ" 1111111109000 = Some "081804".
Proof. vm_compute. reflexivity. Qed.

Example totp_rfc6238_1234567890 :
  Otplib.generate "GEZDGNBVGY3TQOJQGEZDGNBVGY3TQOJQ" 1234567890000 = Some "005924".
Proof. vm_compute. reflexivity. Qed.

Example generateMFASecret_example :
  generateMFASecret (Some "test-salt") "0xAbC0000000000000000000000000000000000001"
  = generateMFASecret (Some "test-salt") "0xabc0000000000000000000000000000000000001".
Proof. vm_compute. reflexivity. Qed.

(** * The signature verifier *)

Section SignatureVerifier.

Variable ethers_recover : string -> Json.value -> option string.

Lemma verifySignature_false_iff message signature expectedAddress :
  verifySignature ethers_recover message signature expectedAddress = false <->
  forall a, ethers_recover message signature = Some a ->
            Js.toLowerCase a <> Js.toLowerCase expectedAddress.
Proof.
  unfold verifySignature, recoverAddress.
  destruct (ethers_recover message signature) as [r|]; split.
  - intros H a [= <-]. by apply String.eqb_neq.
  - intros H. apply String.eqb_neq. by apply H.
  - by intros _ a.
  - done.
Qed.

(** C5. [verifySignature] is a total boolean function: where the recovery
    library throws, [recoverAddress] propagates the error "Failed to recover
    address from signature" and [verifySignature] returns [false]; where it
    recovers an address, [recoverAddress] returns it and [verifySignature]
    is the case-insensitive comparison with the expected address. *)
Theorem verifySignature_catches_what_recoverAddress_throws
    (message : string) (signature : Json.value) (expectedAddress : string) :
  match ethers_recover message signature with
  | None =>
      recoverAddress ethers_recover message signature
        = Thrown "Failed to recover address from signature"
      /\ verifySignature ethers_recover message signature expectedAddress = false
  | Some a =>
      recoverAddress ethers_recover message signature = Returned a
      /\ verifySignature ethers_recover message signature expectedAddress
         = String.eqb (Js.toLowerCase a) (Js.toLowerCase expectedAddress)
  end.
Proof.
  unfold verifySignature, recoverAddress.
  destruct (ethers_recover message signature); split; reflexivity.
Qed.

End SignatureVerifier.

(** * Login *)

Section Login.

Variable ethers_recover : string -> Json.value -> option string.

(** C9. A login whose message is not the literal "login" is answered with
    400 "Invalid login message" and leaves the state as it was, whatever the
    signature, the address and the recovery library are. *)
Theorem login_message_gate (w : World) (st : State) (b : Json.value)
    (message signature address : string) :
  LoginSchema_parse b = Some (message, signature, address) ->
  message <> "login" ->
  post_auth ethers_recover w st b = (st, error_response 400 "Invalid login message")
  /\ forall recover' w' b' signature' address',
       LoginSchema_parse b' = Some (message, signature', address') ->
       post_auth recover' w' st b' = post_auth ethers_recover w st b.
Proof.
  intros Hparse Hne.
  assert (Hgate : forall r w0 b0 s0 a0,
             LoginSchema_parse b0 = Some (message, s0, a0) ->
             post_auth r w0 st b0 = (st, error_response 400 "Invalid login message")).
  { intros r w0 b0 s0 a0 H0. unfold post_auth. rewrite H0.
    apply String.eqb_neq in Hne. by rewrite Hne. }
  split.
  - by eapply Hgate.
  - intros r' w' b' s' a' H'. rewrite (Hgate _ _ _ _ _ H'). symmetry. by eapply Hgate.
Qed.

(** C6. A login with the message "login" whose signature does not recover
    to the claimed address is answered with 401 "Invalid signature", and
    neither the data store nor the session changes: no user row and no auth
    row is created. *)
Theorem login_invalid_signature_atomic (w : World) (st : State) (b : Json.value)
    (signature address : string) :
  LoginSchema_parse b = Some ("login", signature, address) ->
  (forall a, ethers_recover "login" (Json.Str signature) = Some a ->
             Js.toLowerCase a <> Js.toLowerCase address) ->
  let '(st', response) := post_auth ethers_recover w st b in
  response = error_response 401 "Invalid signature"
  /\ st' = st
  /\ users (db st') = users (db st)
  /\ auths (db st') = auths (db st).
Proof.
  intros Hparse Hsig.
  apply verifySignature_false_iff in Hsig.
  unfold post_auth. rewrite Hparse. cbn [String.eqb negb]. simpl.
  rewrite Hsig. simpl. done.
Qed.

End Login.

Lemma login_message_gate_witness :
  let st := mkState Fixture.empty_db empty_session Otplib.defaultOptions in
  let b := Fixture.login_body "notlogin" (Fixture.sign "notlogin") Fixture.walletAddress in
  post_auth Fixture.recover (Fixture.world Fixture.t0) st b
    = (st, error_response 400 "Invalid login message")
  /\ forall recover' w' b' signature' address',
       LoginSchema_parse b' = Some ("notlogin", signature', address') ->
       post_auth recover' w' st b' = post_auth Fixture.recover (Fixture.world Fixture.t0) st b.
Proof.
  intros st b.
  apply (login_message_gate Fixture.recover (Fixture.world Fixture.t0) st b
           "notlogin" (Fixture.sign "notlogin") Fixture.walletAddress).
  - reflexivity.
  - discriminate.
Defined.

Lemma login_invalid_signature_atomic_witness :
  let st := mkState Fixture.empty_db empty_session Otplib.defaultOptions in
  let b := Fixture.login_body "login" "0xinvalidsignature" Fixture.walletAddress in
  let '(st', response) := post_auth Fixture.recover (Fixture.world Fixture.t0) st b in
  response = error_response 401 "Invalid signature"
  /\ st' = st
  /\ users (db st') = users (db st)
  /\ auths (db st') = auths (db st).
Proof.
  intros st b.
  apply (login_invalid_signature_atomic Fixture.recover (Fixture.world Fixture.t0) st b
           "0xinvalidsignature" Fixture.walletAddress).
  - reflexivity.
  - intros a. vm_compute. discriminate.
Defined.

(** * Completing a login with MFA *)

Section MfaLogin.

Variable MFA_SERVER_SALT : option string.

Lemma in_pending_state_inv (s : Session) :
  in_pending_state s = true ->
  exists uid phrase,
    pendingUserId s = Some uid /\ uid <> 0
    /\ mfaBonusPhrase s = Some phrase /\ phrase <> "".
Proof.
  unfold in_pending_state, Js.truthy_num, Js.truthy_str.
  destruct (pendingUserId s) as [uid|], (mfaBonusPhrase s) as [phrase|]; simpl;
    try discriminate; try (rewrite andb_false_r; discriminate).
  intros [Hu Hp]%andb_true_iff.
  exists uid, phrase. repeat split.
  - apply negb_true_iff, Z.eqb_neq in Hu. exact Hu.
  - apply negb_true_iff, String.eqb_neq in Hp. exact Hp.
Qed.

Lemma not_pending_rejected (w : World) (st : State) (b : Json.value)
    (mfa_code : string) (mfa_bonus_phrase : option string) :
  MFAVerifySchema_parse b = Some (mfa_code, mfa_bonus_phrase) ->
  in_pending_state (session st) = false ->
  post_mfa MFA_SERVER_SALT w st b
    = (st, error_response 401 "No pending MFA authentication").
Proof.
  intros Hparse Hnp. unfold post_mfa. rewrite Hparse.
  unfold in_pending_state in Hnp.
  apply andb_false_iff in Hnp as [-> | ->].
  - reflexivity.
  - rewrite orb_true_r. reflexivity.
Qed.

(** C10. On a session in the Pending state, a request that carries an
    [mfa_code] and no [mfa_bonus_phrase] property passes the schema and is
    answered with 401 "Invalid bonus phrase"; the state, and with it the
    session's pending fields, is left as it was. *)
Theorem mfa_login_without_bonus_phrase (w : World) (st : State) (b : Json.value)
    (mfa_code : string) :
  Json.zstring "mfa_code" b = Some mfa_code ->
  Json.field "mfa_bonus_phrase" b = None ->
  in_pending_state (session st) = true ->
  MFAVerifySchema_parse b = Some (mfa_code, None)
  /\ post_mfa MFA_SERVER_SALT w st b = (st, error_response 401 "Invalid bonus phrase").
Proof.
  intros Hcode Hphrase Hpending.
  assert (Hparse : MFAVerifySchema_parse b = Some (mfa_code, None)).
  { unfold MFAVerifySchema_parse, Json.zstring_optional. by rewrite Hcode, Hphrase. }
  split; [exact Hparse|].
  unfold post_mfa. rewrite Hparse.
  destruct (in_pending_state_inv _ Hpending) as (uid & phrase & Hu & _ & Hp & _).
  unfold in_pending_state in Hpending.
  apply andb_true_iff in Hpending as [-> ->]. cbn [negb orb].
  rewrite Hp. reflexivity.
Qed.

(** C7. On a session in the Pending state whose user's [mfaTimeoutTimestamp]
    is set and earlier than now, a request with the session's bonus phrase
    and any code is answered with 401 "MFA window expired. Please login
    again."; the session's pending fields are removed and nothing else
    changes; every later [POST /auth/mfa] on that session is answered with
    401 "No pending MFA authentication". *)
Theorem mfa_window_expired (w : World) (st : State) (b : Json.value)
    (mfa_code phrase : string) (uid t : Z) (row : UserRow) (a : Auth) :
  in_pending_state (session st) = true ->
  pendingUserId (session st) = Some uid ->
  mfaBonusPhrase (session st) = Some phrase ->
  MFAVerifySchema_parse b = Some (mfa_code, Some phrase) ->
  users (db st) !! uid = Some row ->
  auths (db st) !! uid = Some a ->
  auth_mfaTimeoutTimestamp a = Some t ->
  t < now w ->
  let '(st', response) := post_mfa MFA_SERVER_SALT w st b in
  response = error_response 401 "MFA window expired. Please login again."
  /\ pendingUserId (session st') = None
  /\ mfaBonusPhrase (session st') = None
  /\ userId (session st') = userId (session st)
  /\ address (session st') = address (session st)
  /\ db st' = db st
  /\ forall w2 b2 mfa_code2 phrase2,
       MFAVerifySchema_parse b2 = Some (mfa_code2, phrase2) ->
       post_mfa MFA_SERVER_SALT w2 st' b2
         = (st', error_response 401 "No pending MFA authentication").
Proof.
  intros Hpending Hu Hp Hparse Hrow Hauth Ht Hlt.
  unfold post_mfa at 1. rewrite Hparse.
  unfold in_pending_state in Hpending.
  apply andb_true_iff in Hpending as [-> ->]. cbn [negb orb].
  rewrite Hp. cbn [strict_ne]. rewrite String.eqb_refl. cbn [negb].
  rewrite Hu. change (default 0 (Some uid)) with uid.
  unfold Prisma.user_findUnique_id. rewrite Hrow.
  cbn [fmap option_fmap option_map Prisma.with_relations user_of user_id].
  rewrite Hauth.
  unfold timed_out. rewrite Ht.
  apply Z.ltb_lt in Hlt. rewrite Hlt.
  repeat split.
  intros w2 b2 c2 p2 H2.
  by apply (not_pending_rejected w2 _ b2 c2 p2).
Qed.

End MfaLogin.

Lemma mfa_login_without_bonus_phrase_witness :
  let st := mkState (Fixture.db_with (mkAuth true false (Some (Fixture.t0 + 300000))))
                    Fixture.pending Otplib.defaultOptions in
  let b := Fixture.code_body "123456" in
  MFAVerifySchema_parse b = Some ("123456", None)
  /\ post_mfa Fixture.salt (Fixture.world Fixture.t0) st b
     = (st, error_response 401 "Invalid bonus phrase").
Proof.
  intros st b.
  apply (mfa_login_without_bonus_phrase Fixture.salt (Fixture.world Fixture.t0) st b "123456");
    reflexivity.
Defined.

Lemma mfa_window_expired_witness :
  let st := mkState (Fixture.db_with (mkAuth true false (Some (Fixture.t0 - 10000))))
                    Fixture.pending Otplib.defaultOptions in
  let b := Fixture.mfa_body (Fixture.code_at Fixture.t0) Fixture.bonusPhrase in
  let '(st', response) := post_mfa Fixture.salt (Fixture.world Fixture.t0) st b in
  response = error_response 401 "MFA window expired. Please login again."
  /\ pendingUserId (session st') = None
  /\ mfaBonusPhrase (session st') = None
  /\ userId (session st') = userId (session st)
  /\ address (session st') = address (session st)
  /\ db st' = db st
  /\ forall w2 b2 mfa_code2 phrase2,
       MFAVerifySchema_parse b2 = Some (mfa_code2, phrase2) ->
       post_mfa Fixture.salt w2 st' b2
         = (st', error_response 401 "No pending MFA authentication").
Proof.
  intros st b.
  apply (mfa_window_expired Fixture.salt (Fixture.world Fixture.t0) st b
           (Fixture.code_at Fixture.t0) Fixture.bonusPhrase 1 (Fixture.t0 - 10000)
           Fixture.user1 (mkAuth true false (Some (Fixture.t0 - 10000))));
    reflexivity.
Defined.

(** * The MFA secret *)

Lemma lower_char_idem (c : ascii) : Js.lower_char (Js.lower_char c) = Js.lower_char c.
Proof. destruct c as [[] [] [] [] [] [] [] []]; reflexivity. Qed.

Lemma toLowerCase_idem (s : string) : Js.toLowerCase (Js.toLowerCase s) = Js.toLowerCase s.
Proof. induction s as [|c r IH]; simpl; [reflexivity|]. by rewrite lower_char_idem, IH. Qed.

Lemma hex_value_hex_digit (d : Z) :
  0 <= d < 16 -> Js.hex_value (Bytes.hex_digit d) = Some d.
Proof.
  intros H.
  assert (Hd : d ∈ (Z.of_nat <$> seq 0 16)).
  { apply list_elem_of_fmap. exists (Z.to_nat d). split; [lia|].
    apply list_elem_of_In, in_seq. lia. }
  cbn in Hd. repeat (apply elem_of_cons in Hd as [-> | Hd]; [reflexivity|]).
  by apply elem_of_nil in Hd.
Qed.

Lemma parseInt16_to_hex (b : Z) :
  Bytes.is_byte b -> Js.parseInt16 (Bytes.to_hex [b]) = Some b.
Proof.
  intros Hb. unfold Bytes.is_byte in Hb.
  cbn [Bytes.to_hex Js.parseInt16].
  rewrite hex_value_hex_digit by (split; [apply Z.div_pos; lia | apply Z.div_lt_upper_bound; lia]).
  cbn [Js.hex_prefix].
  rewrite hex_value_hex_digit by (apply Z.mod_pos_bound; lia).
  f_equal. pose proof (Z.div_mod b 16). lia.
Qed.

Lemma substr_to_hex (bs : list Z) (i : nat) (b : Z) :
  bs !! i = Some b -> Js.substr (i * 2) 2 (Bytes.to_hex bs) = Bytes.to_hex [b].
Proof.
  revert i. induction bs as [|x r IH]; intros [|i] H; try discriminate.
  - injection H as ->. cbn. destruct r; reflexivity.
  - cbn [Bytes.to_hex Nat.mul Nat.add Js.substr]. apply IH. exact H.
Qed.

Lemma char_at_base32Chars (b : Z) :
  Js.char_at (Z.to_nat (b mod 32)) base32Chars = Some (base32_of_byte b)
  /\ is_base32_char (base32_of_byte b) = true
  /\ Otplib.base32_value (base32_of_byte b) = Some (b mod 32).
Proof.
  unfold base32_of_byte.
  assert (H : 0 <= b mod 32 < 32) by (apply Z.mod_pos_bound; lia).
  assert (Hd : b mod 32 ∈ (Z.of_nat <$> seq 0 32)).
  { apply list_elem_of_fmap. exists (Z.to_nat (b mod 32)). split; [lia|].
    apply list_elem_of_In, in_seq. lia. }
  cbn in Hd.
  repeat (apply elem_of_cons in Hd as [-> | Hd]; [repeat split; reflexivity|]).
  by apply elem_of_nil in Hd.
Qed.

Lemma be_bytes (n : nat) (x : Z) : Forall Bytes.is_byte (Bytes.be n x).
Proof.
  induction n as [|n IH]; cbn [Bytes.be]; constructor; [|exact IH].
  apply Z.mod_pos_bound. lia.
Qed.

Lemma be_length (n : nat) (x : Z) : List.length (Bytes.be n x) = n.
Proof. induction n as [|n IH]; cbn [Bytes.be List.length]; congruence. Qed.

Lemma sha256_digest_bytes (msg : list Z) :
  List.length (Sha256.digest msg) = 32%nat /\ Forall Bytes.is_byte (Sha256.digest msg).
Proof.
  unfold Sha256.digest, Sha256.output. split.
  - repeat rewrite List.length_app. repeat rewrite be_length. reflexivity.
  - repeat (apply Forall_app; split); apply be_bytes.
Qed.

Lemma secret_step_byte (bs : list Z) (secret : string) (i : nat) (b : Z) :
  bs !! i = Some b -> Bytes.is_byte b ->
  secret_step (Bytes.to_hex bs) secret i = secret ++ String (base32_of_byte b) "".
Proof.
  intros Hi Hb. unfold secret_step.
  rewrite (substr_to_hex bs i b Hi), (parseInt16_to_hex b Hb).
  destruct (char_at_base32Chars b) as [-> _]. reflexivity.
Qed.

Lemma string_of_list_ascii_snoc (l : list ascii) (c : ascii) :
  string_of_list_ascii (l ++ [c])%list = string_of_list_ascii l ++ String c "".
Proof.
  induction l as [|x l IH]; [reflexivity|].
  cbn [string_of_list_ascii app String.append]. by rewrite IH.
Qed.

Lemma secret_loop (bs : list Z) (n : nat) :
  Forall Bytes.is_byte bs -> (n <= List.length bs)%nat ->
  List.fold_left (secret_step (Bytes.to_hex bs)) (List.seq 0 n) ""
  = string_of_list_ascii (List.map base32_of_byte (List.firstn n bs)).
Proof.
  intros Hbs. induction n as [|n IH]; intros Hn; [reflexivity|].
  rewrite List.seq_S, List.fold_left_app, IH by lia. cbn [List.fold_left Nat.add].
  destruct (lookup_lt_is_Some_2 bs n) as [b Hb]; [lia|].
  rewrite (secret_step_byte bs _ n b Hb).
  2:{ rewrite Forall_forall in Hbs. apply Hbs. by eapply list_elem_of_lookup_2. }
  rewrite (take_S_r bs n b Hb), List.map_app. cbn [List.map].
  rewrite string_of_list_ascii_snoc. reflexivity.
Qed.

Lemma generateMFASecret_bytes (env_salt : option string) (address : string) :
  generateMFASecret env_salt address
  = string_of_list_ascii
      (List.map base32_of_byte
         (Sha256.digest (Bytes.of_string (Js.toLowerCase address ++ ":" ++ mfa_salt env_salt)))).
Proof.
  unfold generateMFASecret, Sha256.hexdigest. fold (mfa_salt env_salt).
  set (bs := Sha256.digest _).
  destruct (sha256_digest_bytes (Bytes.of_string (Js.toLowerCase address ++ ":" ++ mfa_salt env_salt)))
    as [Hlen Hbytes]. fold bs in Hlen, Hbytes.
  rewrite (secret_loop bs 32 Hbytes) by lia.
  rewrite <- Hlen, firstn_all. reflexivity.
Qed.

Lemma string_length_of_list (l : list ascii) :
  String.length (string_of_list_ascii l) = List.length l.
Proof. induction l; simpl; congruence. Qed.

(** C8. For every address and every configured salt the derived secret has
    32 characters, each a letter A-Z or a digit 2-7, and deriving it from the
    lower-cased address gives the same secret. *)
Theorem generateMFASecret_base32 (env_salt : option string) (address : string) :
  String.length (generateMFASecret env_salt address) = 32%nat
  /\ Forall (fun c => is_base32_char c = true)
            (list_ascii_of_string (generateMFASecret env_salt address))
  /\ generateMFASecret env_salt address
     = generateMFASecret env_salt (Js.toLowerCase address).
Proof.
  repeat split.
  - rewrite generateMFASecret_bytes, string_length_of_list, List.length_map.
    apply sha256_digest_bytes.
  - rewrite generateMFASecret_bytes, list_ascii_of_string_of_list_ascii.
    apply Forall_forall. intros c [b [-> _]]%list_elem_of_fmap.
    apply char_at_base32Chars.
  - unfold generateMFASecret. rewrite toLowerCase_idem. reflexivity.
Qed.

(** * The session after a login *)

Section LoginSession.

Variable ethers_recover : string -> Json.value -> option string.

(** C1 (the code departs from it). When a login takes the MFA branch on a
    session that holds the Authenticated fields, the session afterwards
    holds the Pending fields and still holds the Authenticated fields,
    unchanged: storing the pending fields clears nothing. *)
Theorem login_mfa_branch_keeps_authenticated_fields (w : World) (st : State) (b : Json.value) :
  Json.field "mfa" (body (snd (post_auth ethers_recover w st b))) = Some (Json.Bool true) ->
  holds_authenticated_fields (session st) = true ->
  let s' := session (fst (post_auth ethers_recover w st b)) in
  holds_pending_fields s' = true
  /\ holds_authenticated_fields s' = true
  /\ userId s' = userId (session st)
  /\ address s' = address (session st).
Proof.
  unfold post_auth.
  repeat case_match; try discriminate.
  all: intros _ Hauth; repeat split; exact Hauth.
Qed.

(** the login handler only assigns session properties: none that was set
    is ever removed *)
Lemma post_auth_deletes_nothing (w : World) (st : State) (b : Json.value) :
  let s := session st in
  let s' := session (fst (post_auth ethers_recover w st b)) in
  (is_Some (userId s) -> is_Some (userId s'))
  /\ (is_Some (address s) -> is_Some (address s'))
  /\ (is_Some (pendingUserId s) -> is_Some (pendingUserId s'))
  /\ (is_Some (mfaBonusPhrase s) -> is_Some (mfaBonusPhrase s')).
Proof.
  unfold post_auth.
  repeat case_match; cbn; repeat split; eauto.
Qed.

End LoginSession.

Lemma login_mfa_branch_keeps_authenticated_fields_witness :
  let st := mkState (Fixture.db_with (mkAuth true false None)) Fixture.authenticated
                    Otplib.defaultOptions in
  let b := Fixture.login_body "login" (Fixture.sign "login") Fixture.walletAddress in
  let s' := session (fst (post_auth Fixture.recover (Fixture.world Fixture.t0) st b)) in
  holds_pending_fields s' = true
  /\ holds_authenticated_fields s' = true
  /\ userId s' = userId (session st)
  /\ address s' = address (session st).
Proof.
  intros st b.
  apply (login_mfa_branch_keeps_authenticated_fields Fixture.recover
           (Fixture.world Fixture.t0) st b).
  - vm_compute. reflexivity.
  - reflexivity.
Defined.

Example login_on_authenticated_session_with_mfa :
  post_auth Fixture.recover (Fixture.world Fixture.t0)
    (mkState (Fixture.db_with (mkAuth true false None)) Fixture.authenticated
             Otplib.defaultOptions)
    (Fixture.login_body "login" (Fixture.sign "login") Fixture.walletAddress)
  = (mkState (Fixture.db_with (mkAuth true false (Some (Fixture.t0 + 300000))))
             (mkSession (Some 1) (Some "0xabc0000000000000000000000000000000000001")
                        (Some 1) (Some Fixture.bonusPhrase))
             Otplib.defaultOptions,
     ok_response (Json.Obj [("success", Json.Bool true); ("mfa", Json.Bool true);
                            ("mfa_bonus_phrase", Json.Str Fixture.bonusPhrase)])).
Proof. vm_compute. reflexivity. Qed.

(** * The MFA timeout *)

Lemma auth_update_lookup (d d' : Db) (uid : Z) (data : Auth -> Auth) :
  Prisma.auth_update d uid data = Some d' ->
  exists a, auths d !! uid = Some a
            /\ auths d' !! uid = Some (data a)
            /\ users d' = users d.
Proof.
  unfold Prisma.auth_update. destruct (auths d !! uid) as [a|] eqn:Ha; [|discriminate].
  intros [= <-]. exists a. cbn [auths users]. by rewrite lookup_insert_eq.
Qed.

Section MfaTimeout.

Variable MFA_SERVER_SALT : option string.

(** C2 (as amended). Every successful [POST /auth/mfa] leaves the
    [mfaTimeoutTimestamp] of the session's pending user null, and the
    session Authenticated and without pending fields. *)
Theorem mfa_login_success_clears_timeout (w : World) (st : State) (b : Json.value) :
  status (snd (post_mfa MFA_SERVER_SALT w st b)) = 200 ->
  let st' := fst (post_mfa MFA_SERVER_SALT w st b) in
  exists uid a',
    pendingUserId (session st) = Some uid
    /\ auths (db st') !! uid = Some a'
    /\ auth_mfaTimeoutTimestamp a' = None
    /\ holds_pending_fields (session st') = false
    /\ holds_authenticated_fields (session st') = true.
Proof.
  unfold post_mfa.
  destruct (MFAVerifySchema_parse b) as [[mfa_code phrase]|]; [|discriminate].
  destruct (pendingUserId (session st)) as [uid|] eqn:Hu; [|discriminate].
  change (default 0 (Some uid)) with uid.
  unfold Prisma.user_findUnique_id.
  destruct (users (db st) !! uid) as [row|] eqn:Hrow.
  2:{ cbn [fmap option_fmap option_map]. repeat case_match; discriminate. }
  cbn [fmap option_fmap option_map Prisma.with_relations user_of user_id].
  repeat case_match; try discriminate.
  intros _. cbn [fst].
  match goal with H : Prisma.auth_update _ _ _ = Some _ |- _ =>
    apply auth_update_lookup in H as (a0 & _ & Hnew & _) end.
  exists uid, (mkAuth (auth_mfa a0) (auth_awaitingMfa a0) None).
  repeat split. exact Hnew.
Qed.

End MfaTimeout.

Lemma mfa_login_success_clears_timeout_witness :
  let st := mkState (Fixture.db_with (mkAuth true false (Some (Fixture.t0 + 300000))))
                    Fixture.pending Otplib.defaultOptions in
  let b := Fixture.mfa_body (Fixture.code_at Fixture.t0) Fixture.bonusPhrase in
  let st' := fst (post_mfa Fixture.salt (Fixture.world Fixture.t0) st b) in
  exists uid a',
    pendingUserId (session st) = Some uid
    /\ auths (db st') !! uid = Some a'
    /\ auth_mfaTimeoutTimestamp a' = None
    /\ holds_pending_fields (session st') = false
    /\ holds_authenticated_fields (session st') = true.
Proof.
  intros st b.
  apply (mfa_login_success_clears_timeout Fixture.salt (Fixture.world Fixture.t0) st b).
  vm_compute. reflexivity.
Defined.

(** C2 as stated fails: the expired branch removes the session's pending
    fields and leaves [mfaTimeoutTimestamp] set. *)
Lemma expired_mfa_login_keeps_timeout :
  let st := mkState (Fixture.db_with (mkAuth true false (Some (Fixture.t0 - 10000))))
                    Fixture.pending Otplib.defaultOptions in
  let b := Fixture.mfa_body (Fixture.code_at Fixture.t0) Fixture.bonusPhrase in
  let '(st', response) := post_mfa Fixture.salt (Fixture.world Fixture.t0) st b in
  in_pending_state (session st) = true
  /\ response = error_response 401 "MFA window expired. Please login again."
  /\ holds_pending_fields (session st') = false
  /\ mfaTimeoutTimestamp_of (db st') 1 = Some (Fixture.t0 - 10000)
  /\ mfaTimeoutTimestamp_of (db st') 1 <> None.
Proof. vm_compute. repeat split. discriminate. Qed.

(** * The TOTP window *)

Lemma totpCheckWithWindow_0 (token : string) (key : list Z) (epoch : Z) :
  Otplib.totpCheckWithWindow token key epoch 0 = String.eqb token (Otplib.totpToken key epoch).
Proof.
  unfold Otplib.totpCheckWithWindow, Otplib.totpCheck. cbn [Otplib.totpCheckByEpoch].
  by rewrite !orb_false_r.
Qed.

Lemma totpCheckWithWindow_2 (key : list Z) (epoch k : Z) :
  -2 <= k <= 2 ->
  Otplib.totpCheckWithWindow (Otplib.totpToken key (epoch + k * 30000)) key epoch 2 = true.
Proof.
  intros Hk.
  unfold Otplib.totpCheckWithWindow. cbn [Otplib.totpCheckByEpoch]. unfold Otplib.totpCheck.
  assert (Hcases : k = 0 \/ k = -1 \/ k = -2 \/ k = 1 \/ k = 2) by lia.
  destruct Hcases as [-> | [-> | [-> | [-> | ->]]]].
  - replace (epoch + 0 * 30000) with epoch by lia.
    by rewrite String.eqb_refl.
  - replace (epoch + -1 * Z.of_nat 1 * 30 * 1000) with (epoch + -1 * 30000) by lia.
    rewrite String.eqb_refl. by rewrite !orb_true_r.
  - replace (epoch + -1 * Z.of_nat 2 * 30 * 1000) with (epoch + -2 * 30000) by lia.
    rewrite String.eqb_refl. by rewrite !orb_true_r.
  - replace (epoch + 1 * Z.of_nat 1 * 30 * 1000) with (epoch + 1 * 30000) by lia.
    rewrite String.eqb_refl. by rewrite !orb_true_r.
  - replace (epoch + 1 * Z.of_nat 2 * 30 * 1000) with (epoch + 2 * 30000) by lia.
    rewrite String.eqb_refl. by rewrite !orb_true_r.
Qed.

Section TotpWindow.

Variable MFA_SERVER_SALT : option string.

(** C3 (the code departs from it). A code of an adjacent time step (within
    two steps of the current one, and different from the current code) is
    rejected by [POST /auth/mfa/verify] with 401 "Invalid MFA code" while
    the authenticator has its default options, and accepted once its
    [window] option is 2, which is what [POST /auth/mfa] leaves behind. *)
Theorem enrollment_window_follows_process_state
    (w : World) (st : State) (b : Json.value) (mfa_code : string)
    (uid k : Z) (row : UserRow) (a : Auth) (key : list Z) :
  userId (session st) = Some uid ->
  uid <> 0 ->
  users (db st) !! uid = Some row ->
  auths (db st) !! uid = Some a ->
  auth_awaitingMfa a = true ->
  MFACodeSchema_parse b = Some mfa_code ->
  Otplib.keyDecoder (generateMFASecret MFA_SERVER_SALT (row_address row)) = Some key ->
  -2 <= k <= 2 ->
  mfa_code = Otplib.totpToken key (now w + k * 30000) ->
  mfa_code <> Otplib.totpToken key (now w) ->
  snd (post_mfa_verify MFA_SERVER_SALT w (with_options Otplib.defaultOptions st) b)
    = error_response 401 "Invalid MFA code"
  /\ snd (post_mfa_verify MFA_SERVER_SALT w
            (with_options (Otplib.Options (Some 2%nat)) st) b)
     = ok_response (Json.Obj [("success", Json.Bool true);
                              ("message", Json.Str "MFA enabled successfully")]).
Proof.
  intros Hu Hnz Hrow Hauth Hawait Hparse Hkey Hk Hcode Hne.
  assert (Hstep : forall o,
    snd (post_mfa_verify MFA_SERVER_SALT w (with_options o st) b)
    = if Otplib.totpCheckWithWindow mfa_code key (now w) (Otplib.allOptions_window o)
      then ok_response (Json.Obj [("success", Json.Bool true);
                                  ("message", Json.Str "MFA enabled successfully")])
      else error_response 401 "Invalid MFA code").
  { intros o. unfold post_mfa_verify, requireAuth.
    cbn [with_options session db authenticator_options]. rewrite Hu.
    unfold Js.truthy_num. apply Z.eqb_neq in Hnz. rewrite Hnz. cbn [negb].
    rewrite Hparse. unfold Prisma.user_findUnique_id. rewrite Hrow.
    cbn [fmap option_fmap option_map Prisma.with_relations user_of user_id user_address].
    rewrite Hauth, Hawait. cbn [negb].
    unfold Otplib.verify. rewrite Hkey.
    destruct (Otplib.totpCheckWithWindow _ _ _ _); cbn [negb]; [|reflexivity].
    unfold Prisma.auth_update. cbn [auths]. rewrite Hauth. reflexivity. }
  rewrite !Hstep. cbn [Otplib.allOptions_window Otplib.window Otplib.defaultOptions].
  rewrite totpCheckWithWindow_0.
  apply String.eqb_neq in Hne. rewrite Hne.
  rewrite Hcode, totpCheckWithWindow_2 by exact Hk. done.
Qed.

(** what [POST /auth/mfa] leaves in the authenticator once it has reached
    the verification of the code *)
Lemma post_mfa_sets_window (w : World) (st : State) (b : Json.value) :
  (status (snd (post_mfa MFA_SERVER_SALT w st b)) = 200
   \/ snd (post_mfa MFA_SERVER_SALT w st b) = error_response 401 "Invalid MFA code") ->
  authenticator_options (fst (post_mfa MFA_SERVER_SALT w st b)) = Otplib.Options (Some 2%nat).
Proof.
  unfold post_mfa.
  repeat case_match; intros [Hr|Hr]; try discriminate; reflexivity.
Qed.

(** [POST /auth/mfa] itself accepts the codes of the two steps before and
    after the current one *)
Lemma mfa_login_accepts_adjacent_steps
    (w : World) (st : State) (b : Json.value) (phrase : string)
    (uid k : Z) (row : UserRow) (a : Auth) (key : list Z) :
  in_pending_state (session st) = true ->
  pendingUserId (session st) = Some uid ->
  mfaBonusPhrase (session st) = Some phrase ->
  users (db st) !! uid = Some row ->
  auths (db st) !! uid = Some a ->
  timed_out w (auth_mfaTimeoutTimestamp a) = false ->
  Otplib.keyDecoder (generateMFASecret MFA_SERVER_SALT (row_address row)) = Some key ->
  -2 <= k <= 2 ->
  MFAVerifySchema_parse b
    = Some (Otplib.totpToken key (now w + k * 30000), Some phrase) ->
  status (snd (post_mfa MFA_SERVER_SALT w st b)) = 200.
Proof.
  intros Hpending Hu Hp Hrow Hauth Htime Hkey Hk Hparse.
  unfold post_mfa. rewrite Hparse.
  unfold in_pending_state in Hpending.
  apply andb_true_iff in Hpending as [-> ->]. cbn [negb orb].
  rewrite Hp. cbn [strict_ne]. rewrite String.eqb_refl. cbn [negb].
  rewrite Hu. change (default 0 (Some uid)) with uid.
  unfold Prisma.user_findUnique_id. rewrite Hrow.
  cbn [fmap option_fmap option_map Prisma.with_relations user_of user_id user_address].
  rewrite Hauth, Htime.
  unfold Otplib.verify. rewrite Hkey.
  cbn [with_options authenticator_options Otplib.set_options Otplib.window
       Otplib.allOptions_window].
  rewrite totpCheckWithWindow_2 by exact Hk. cbn [negb].
  unfold Prisma.auth_update. cbn [with_session with_options db auths]. rewrite Hauth. reflexivity.
Qed.
End TotpWindow.

Lemma enrollment_window_follows_process_state_witness :
  let st := mkState (Fixture.db_with (mkAuth false true None)) Fixture.authenticated
                    Otplib.defaultOptions in
  let b := Fixture.code_body (Fixture.code_at (Fixture.t0 + 30000)) in
  snd (post_mfa_verify Fixture.salt (Fixture.world Fixture.t0)
         (with_options Otplib.defaultOptions st) b)
    = error_response 401 "Invalid MFA code"
  /\ snd (post_mfa_verify Fixture.salt (Fixture.world Fixture.t0)
            (with_options (Otplib.Options (Some 2%nat)) st) b)
     = ok_response (Json.Obj [("success", Json.Bool true);
                              ("message", Json.Str "MFA enabled successfully")]).
Proof.
  intros st b.
  apply (enrollment_window_follows_process_state Fixture.salt (Fixture.world Fixture.t0) st b
           (Fixture.code_at (Fixture.t0 + 30000)) 1 1 Fixture.user1 (mkAuth false true None)
           (default [] (Otplib.keyDecoder Fixture.secret)));
    [ reflexivity | discriminate | reflexivity | reflexivity | reflexivity | reflexivity
    | vm_compute; reflexivity | lia | vm_compute; reflexivity | vm_compute; discriminate ].
Defined.

(** The same enrollment request in one process, before and after another
    session of that process has completed an MFA login. *)
Example enrollment_depends_on_earlier_mfa_login :
  let d := Fixture.db_with (mkAuth true true (Some (Fixture.t0 + 300000))) in
  let enroll := Fixture.code_body (Fixture.code_at (Fixture.t0 + 30000)) in
  let fresh := mkState d Fixture.authenticated Otplib.defaultOptions in
  let other :=
    fst (post_mfa Fixture.salt (Fixture.world Fixture.t0)
           (mkState d Fixture.pending Otplib.defaultOptions)
           (Fixture.mfa_body (Fixture.code_at Fixture.t0) Fixture.bonusPhrase)) in
  let later := mkState (db other) Fixture.authenticated (authenticator_options other) in
  Fixture.code_at Fixture.t0 = "000321"
  /\ Fixture.code_at (Fixture.t0 + 30000) = "408075"
  /\ snd (post_mfa_verify Fixture.salt (Fixture.world Fixture.t0) fresh enroll)
     = error_response 401 "Invalid MFA code"
  /\ snd (post_mfa_verify Fixture.salt (Fixture.world Fixture.t0) later enroll)
     = ok_response (Json.Obj [("success", Json.Bool true);
                              ("message", Json.Str "MFA enabled successfully")]).
Proof. vm_compute. repeat split. Qed.

(** * MFA enrollment *)

Section Enrollment.

Variable ethers_recover : string -> Json.value -> option string.
Variable MFA_SERVER_SALT : option string.
Variable authenticator_keyuri : string -> string -> string -> string.
Variable QRCode_toDataURL : string -> option string.

(** C4 (the code departs from it). Every success response of
    [POST /auth/mfa/initialize] is the object [{ success: true, qrCode }]:
    it has a [qrCode] property and no [secret] property. *)
Theorem mfa_initialize_response_has_no_secret (w : World) (st : State) (b : Json.value) :
  let response :=
    snd (post_mfa_initialize ethers_recover MFA_SERVER_SALT authenticator_keyuri
           QRCode_toDataURL w st b) in
  status response = 200 ->
  (exists qrCode,
     body response = Json.Obj [("success", Json.Bool true); ("qrCode", Json.Str qrCode)])
  /\ Json.has_field "qrCode" (body response) = true
  /\ Json.has_field "secret" (body response) = false.
Proof.
  cbv zeta. unfold post_mfa_initialize, requireAuth.
  repeat case_match; try discriminate.
  intros _. split; [eexists; reflexivity|]. split; reflexivity.
Qed.

End Enrollment.

Lemma mfa_initialize_response_has_no_secret_witness :
  let st := mkState (Fixture.db_with (mkAuth false false None)) Fixture.authenticated
                    Otplib.defaultOptions in
  let b := Fixture.sign_body "enableMFA" (Fixture.sign "enableMFA") in
  let response :=
    snd (post_mfa_initialize Fixture.recover Fixture.salt Fixture.keyuri Fixture.toDataURL
           (Fixture.world Fixture.t0) st b) in
  (exists qrCode,
     body response = Json.Obj [("success", Json.Bool true); ("qrCode", Json.Str qrCode)])
  /\ Json.has_field "qrCode" (body response) = true
  /\ Json.has_field "secret" (body response) = false.
Proof.
  intros st b.
  apply (mfa_initialize_response_has_no_secret Fixture.recover Fixture.salt Fixture.keyuri
           Fixture.toDataURL (Fixture.world Fixture.t0) st b).
  vm_compute. reflexivity.
Defined.

(** * Traces *)

(** The expired window, as a trace of two requests on one session. *)
Example expired_then_no_pending :
  snd (run Fixture.recover Fixture.salt Fixture.keyuri Fixture.toDataURL
         (mkState (Fixture.db_with (mkAuth true false (Some (Fixture.t0 - 10000))))
                  Fixture.pending Otplib.defaultOptions)
         [(Fixture.world Fixture.t0,
           CompleteMfaLogin (Fixture.mfa_body (Fixture.code_at Fixture.t0) Fixture.bonusPhrase));
          (Fixture.world (Fixture.t0 + 1000),
           CompleteMfaLogin (Fixture.mfa_body (Fixture.code_at Fixture.t0) Fixture.bonusPhrase))])
  = [error_response 401 "MFA window expired. Please login again.";
     error_response 401 "No pending MFA authentication"].
Proof. vm_compute. reflexivity. Qed.

(** A first login, MFA enrollment, logout, and a login completed with MFA. *)
Example mfa_round_trip :
  let w := Fixture.world Fixture.t0 in
  let code := Fixture.code_body (Fixture.code_at Fixture.t0) in
  List.map status
    (snd (run Fixture.recover Fixture.salt Fixture.keyuri Fixture.toDataURL
            (mkState Fixture.empty_db empty_session Otplib.defaultOptions)
            [(w, Login (Fixture.login_body "login" (Fixture.sign "login") Fixture.walletAddress));
             (w, GetCurrentUser);
             (w, InitializeMfaEnrollment
                   (Fixture.sign_body "enableMFA" (Fixture.sign "enableMFA")));
             (w, CompleteMfaEnrollment code);
             (w, Logout);
             (w, GetCurrentUser);
             (w, Login (Fixture.login_body "login" (Fixture.sign "login")
                          (Js.toLowerCase Fixture.walletAddress)));
             (w, GetCurrentUser);
             (w, CompleteMfaLogin
                   (Fixture.mfa_body (Fixture.code_at Fixture.t0) Fixture.bonusPhrase));
             (w, GetCurrentUser)]))
  = [200; 200; 200; 200; 200; 401; 200; 401; 200; 200].
Proof. vm_compute. reflexivity. Qed.

(** * The data store *)

Lemma user_findUnique_address_Some (d : Db) (addr : string) (uw : UserWith) :
  Prisma.user_findUnique_address d addr = Some uw ->
  exists id r, users d !! id = Some r /\ row_address r = addr
               /\ uw = Prisma.with_relations d (user_of id r).
Proof.
  unfold Prisma.user_findUnique_address.
  destruct (List.find _ _) as [[id r]|] eqn:Hf; [|discriminate].
  intros [= <-]. apply List.find_some in Hf as [Hin Heq].
  apply list_elem_of_In, elem_of_map_to_list in Hin.
  apply String.eqb_eq in Heq. by exists id, r.
Qed.

Lemma user_findUnique_address_None (d : Db) (addr : string) :
  Prisma.user_findUnique_address d addr = None ->
  forall id r, users d !! id = Some r -> row_address r <> addr.
Proof.
  unfold Prisma.user_findUnique_address.
  destruct (List.find _ _) as [kr|] eqn:Hf; [discriminate|].
  intros _ id r Hr. pose proof (List.find_none _ _ Hf (id, r)) as Hn.
  apply String.eqb_neq, Hn, list_elem_of_In, elem_of_map_to_list. exact Hr.
Qed.

Lemma user_findUnique_address_row (d : Db) (id : Z) (r : UserRow) :
  db_inv d -> users d !! id = Some r ->
  Prisma.user_findUnique_address d (row_address r)
    = Some (Prisma.with_relations d (user_of id r)).
Proof.
  intros Hinv Hr.
  destruct (Prisma.user_findUnique_address d (row_address r)) as [uw|] eqn:Hf.
  - apply user_findUnique_address_Some in Hf as (id' & r' & Hr' & Ha & ->).
    assert (id' = id) as -> by (eapply (inv_unique d Hinv); eauto).
    by simplify_eq.
  - exfalso. by eapply user_findUnique_address_None.
Qed.

Lemma user_create_inv (d : Db) (addr : string) :
  db_inv d ->
  Prisma.user_findUnique_address d (Js.toLowerCase addr) = None ->
  db_inv (fst (Prisma.user_create d (Js.toLowerCase addr))).
Proof.
  intros [Hseq Hids Hlow Huniq Hauth] Hnone.
  pose proof (user_findUnique_address_None d _ Hnone) as Hfresh.
  assert (Hnew : users d !! (user_seq d + 1) = None).
  { destruct (users d !! (user_seq d + 1)) as [r|] eqn:Hr; [|done].
    apply Hids in Hr. lia. }
  unfold Prisma.user_create. cbn [fst]. constructor; cbn [users auths user_seq].
  - lia.
  - intros id r. rewrite lookup_insert. case_decide as Hid.
    + intros _. lia.
    + intros Hr. apply Hids in Hr. lia.
  - intros id r. rewrite lookup_insert. case_decide as Hid.
    + intros [= <-]. apply toLowerCase_idem.
    + apply Hlow.
  - intros i j ri rj. rewrite !lookup_insert.
    repeat case_decide; intros Hi Hj Ha; simplify_eq.
    + done.
    + exfalso. eapply Hfresh; eauto.
    + exfalso. eapply Hfresh; eauto.
    + eapply Huniq; eauto.
  - intros id r. rewrite !lookup_insert. case_decide as Hid; [by eauto|]. apply Hauth.
Qed.

Lemma auth_update_inv (d d' : Db) (uid : Z) (data : Auth -> Auth) :
  db_inv d -> Prisma.auth_update d uid data = Some d' -> db_inv d'.
Proof.
  intros [Hseq Hids Hlow Huniq Hauth]. unfold Prisma.auth_update.
  destruct (auths d !! uid) as [a|] eqn:Ha; [|discriminate].
  intros [= <-]. constructor; cbn [users auths user_seq]; try done.
  intros id r Hr. rewrite lookup_insert. case_decide; [by eauto|]. by eapply Hauth.
Qed.

Lemma auth_update_users (d d' : Db) (uid : Z) (data : Auth -> Auth) :
  Prisma.auth_update d uid data = Some d' ->
  users d' = users d /\ user_seq d' = user_seq d /\ messages d' = messages d.
Proof.
  unfold Prisma.auth_update. destruct (auths d !! uid); [|discriminate].
  by intros [= <-].
Qed.

Lemma session_inv_mono (d d' : Db) (s : Session) :
  (forall id r, users d !! id = Some r -> users d' !! id = Some r) ->
  session_inv d s -> session_inv d' s.
Proof.
  intros Hmono [Hu Hp]. split.
  - intros id Hid. destruct (Hu id Hid) as (r & Hr & Ha). exists r. split; [by apply Hmono|done].
  - intros id Hid. destruct (Hp id Hid) as [r Hr]. exists r. by apply Hmono.
Qed.

Lemma user_create_mono (d : Db) (addr : string) :
  db_inv d ->
  forall id r, users d !! id = Some r ->
               users (fst (Prisma.user_create d addr)) !! id = Some r.
Proof.
  intros Hinv id r Hr. unfold Prisma.user_create. cbn [fst users].
  rewrite lookup_insert_ne; [done|].
  apply (inv_ids d Hinv) in Hr. lia.
Qed.

Lemma session_inv_authenticated (d : Db) (s : Session) (id : Z) (r : UserRow) :
  users d !! id = Some r -> session_inv d s ->
  session_inv d (set_address (Some (row_address r)) (set_userId (Some id) s)).
Proof.
  intros Hr [Hu Hp]. split; cbn.
  - intros ? [= <-]. by exists r.
  - exact Hp.
Qed.

Lemma session_inv_pending (d : Db) (s : Session) (id : Z) (phrase : string) :
  is_Some (users d !! id) -> session_inv d s ->
  session_inv d (set_mfaBonusPhrase (Some phrase) (set_pendingUserId (Some id) s)).
Proof.
  intros Hr [Hu Hp]. split; cbn.
  - exact Hu.
  - by intros ? [= <-].
Qed.

Lemma session_inv_not_pending (d : Db) (s : Session) :
  session_inv d s ->
  session_inv d (set_mfaBonusPhrase None (set_pendingUserId None s)).
Proof. intros [Hu Hp]. split; cbn; [exact Hu|discriminate]. Qed.

Lemma auth_update_state_inv (st : State) (d' : Db) (uid : Z) (data : Auth -> Auth) :
  state_inv st -> Prisma.auth_update (db st) uid data = Some d' ->
  state_inv (with_db d' st).
Proof.
  intros [Hdb Hs] Hup. split; cbn [with_db db session].
  - by eapply auth_update_inv.
  - apply auth_update_users in Hup as (Hu & _).
    eapply session_inv_mono; [|exact Hs]. intros ??. by rewrite Hu.
Qed.

Lemma user_findUnique_id_Some (d : Db) (id : Z) (u : User) (a : option Auth)
    (msgs : list Message) :
  Prisma.user_findUnique_id d id = Some (mkUserWith u a msgs) ->
  exists row, users d !! id = Some row /\ u = user_of id row /\ a = auths d !! id.
Proof.
  unfold Prisma.user_findUnique_id. destruct (users d !! id) as [row|]; [|discriminate].
  intros [= <- <- _]. by exists row.
Qed.

Section StateInvariant.

Variable ethers_recover : string -> Json.value -> option string.
Variable MFA_SERVER_SALT : option string.
Variable authenticator_keyuri : string -> string -> string -> string.
Variable QRCode_toDataURL : string -> option string.

Lemma post_auth_inv (w : World) (st : State) (b : Json.value) :
  state_inv st -> state_inv (fst (post_auth ethers_recover w st b)).
Proof.
  intros [Hdb Hs]. unfold post_auth.
  destruct (LoginSchema_parse b) as [[[message signature] addr]|]; [|by split].
  destruct (negb (String.eqb message "login")); [by split|].
  destruct (negb (verifySignature _ _ _ _)); [by split|].
  destruct (Prisma.user_findUnique_address (db st) (Js.toLowerCase addr)) as [user|] eqn:Hf.
  - apply user_findUnique_address_Some in Hf as (id & r & Hr & Ha & ->).
    cbn [Prisma.with_relations uw_user user_of user_id user_address].
    destruct (user_auth_mfa _).
    + destruct (Prisma.auth_update _ _ _) as [db2|] eqn:Hup; [|by split].
      pose proof (auth_update_inv _ _ _ _ Hdb Hup) as Hdb2.
      apply auth_update_users in Hup as (Hu2 & _).
      assert (Hinv : state_inv (with_session
                (set_mfaBonusPhrase (Some (generateBonusPhrase (randomBytes w)))
                   (set_pendingUserId (Some id) (session st))) (with_db db2 st))).
      { split; [exact Hdb2|]. cbn [with_session with_db db session].
        apply session_inv_pending; [rewrite Hu2; by eauto|].
        eapply session_inv_mono; [|exact Hs]. intros ??. by rewrite Hu2. }
      by destruct (storeError w).
    + assert (Hinv : state_inv (with_session
                (set_address (Some (row_address r)) (set_userId (Some id) (session st)))
                (with_db (db st) st))).
      { split; [exact Hdb|]. by apply session_inv_authenticated. }
      by destruct (storeError w).
  - pose proof (user_create_inv _ _ Hdb Hf) as Hdb1.
    pose proof (user_create_mono (db st) (Js.toLowerCase addr) Hdb) as Hmono.
    unfold Prisma.user_create in *. cbn [fst] in Hdb1, Hmono.
    set (id := user_seq (db st) + 1) in *.
    set (row := mkUserRow (Js.toLowerCase addr) "user") in *.
    set (db1 := mkDb _ _ _ _) in *.
    cbn [Prisma.with_relations uw_user user_of user_id user_address].
    assert (Hrow : users db1 !! id = Some row) by apply lookup_insert_eq.
    pose proof (session_inv_mono _ _ _ Hmono Hs) as Hs1.
    destruct (user_auth_mfa _).
    + destruct (Prisma.auth_update _ _ _) as [db2|] eqn:Hup; [|by split].
      pose proof (auth_update_inv _ _ _ _ Hdb1 Hup) as Hdb2.
      apply auth_update_users in Hup as (Hu2 & _).
      assert (Hinv : state_inv (with_session
                (set_mfaBonusPhrase (Some (generateBonusPhrase (randomBytes w)))
                   (set_pendingUserId (Some id) (session st))) (with_db db2 st))).
      { split; [exact Hdb2|]. cbn [with_session with_db db session].
        apply session_inv_pending; [rewrite Hu2; by eauto|].
        eapply session_inv_mono; [|exact Hs1]. intros ??. by rewrite Hu2. }
      by destruct (storeError w).
    + assert (Hinv : state_inv (with_session
                (set_address (Some (row_address row)) (set_userId (Some id) (session st)))
                (with_db db1 st))).
      { split; [exact Hdb1|]. by apply session_inv_authenticated. }
      by destruct (storeError w).
Qed.

Lemma get_auth_inv (st : State) : state_inv st -> state_inv (fst (get_auth st)).
Proof.
  intros Hinv. unfold get_auth, requireAuth. by repeat case_match.
Qed.

Lemma post_logout_inv (w : World) (st : State) :
  state_inv st -> state_inv (fst (post_logout w st)).
Proof.
  intros [Hdb Hs]. unfold post_logout. destruct (storeError w); [by split|].
  split; [exact Hdb|]. split; discriminate.
Qed.

Lemma post_mfa_initialize_inv (w : World) (st : State) (b : Json.value) :
  state_inv st ->
  state_inv (fst (post_mfa_initialize ethers_recover MFA_SERVER_SALT authenticator_keyuri
                    QRCode_toDataURL w st b)).
Proof.
  intros Hinv. unfold post_mfa_initialize, requireAuth.
  repeat case_match; try done.
  cbn [fst]. eapply auth_update_state_inv; eauto.
Qed.

Lemma post_mfa_verify_inv (w : World) (st : State) (b : Json.value) :
  state_inv st -> state_inv (fst (post_mfa_verify MFA_SERVER_SALT w st b)).
Proof.
  intros Hinv. unfold post_mfa_verify, requireAuth.
  repeat case_match; try done.
  cbn [fst]. eapply auth_update_state_inv; eauto.
Qed.

Lemma post_mfa_inv (w : World) (st : State) (b : Json.value) :
  state_inv st -> state_inv (fst (post_mfa MFA_SERVER_SALT w st b)).
Proof.
  intros [Hdb Hs]. unfold post_mfa.
  destruct (MFAVerifySchema_parse b) as [[mfa_code phrase]|]; [|by split].
  destruct (_ || _); [by split|].
  destruct (strict_ne _ _); [by split|].
  destruct (Prisma.user_findUnique_id _ _) as [[u [auth|] msgs]|] eqn:Hf; [|by split|by split].
  apply user_findUnique_id_Some in Hf as (row & Hrow & -> & Hauth).
  destruct (timed_out _ _).
  { split; [exact Hdb|]. by apply session_inv_not_pending. }
  destruct (Otplib.verify _ _ _ _) as [[|]|]; cbn [negb]; [|by split|by split].
  assert (Hs4 : session_inv (db st)
            (set_mfaBonusPhrase None (set_pendingUserId None
               (set_address (Some (row_address row))
                  (set_userId (Some (default 0 (pendingUserId (session st)))) (session st)))))).
  { by apply session_inv_not_pending, session_inv_authenticated. }
  cbn [user_of user_id user_address with_options with_session session db].
  destruct (Prisma.auth_update _ _ _) as [db'|] eqn:Hup; [|by split].
  split; cbn [fst with_db db session].
  - by eapply auth_update_inv.
  - apply auth_update_users in Hup as (Hu & _).
    eapply session_inv_mono; [|exact Hs4]. intros ??. by rewrite Hu.
Qed.

Lemma handle_preserves_state_inv (w : World) (st : State) (r : Request) :
  state_inv st ->
  state_inv (fst (handle ethers_recover MFA_SERVER_SALT authenticator_keyuri
                    QRCode_toDataURL w st r)).
Proof.
  intros Hinv. destruct r; cbn [handle].
  - by apply post_auth_inv.
  - by apply get_auth_inv.
  - by apply post_logout_inv.
  - by apply post_mfa_initialize_inv.
  - by apply post_mfa_verify_inv.
  - by apply post_mfa_inv.
Qed.

End StateInvariant.

(** * Reachable states, the authentication gate and logout *)

Lemma initial_state_inv : state_inv initial_state.
Proof.
  split.
  - constructor; cbn [initial_state db users auths user_seq]; try done;
      intros *; rewrite ?lookup_empty; discriminate.
  - split; intros id; discriminate.
Qed.

Section Reachable.

Variable ethers_recover : string -> Json.value -> option string.
Variable MFA_SERVER_SALT : option string.
Variable authenticator_keyuri : string -> string -> string -> string.
Variable QRCode_toDataURL : string -> option string.

Lemma run_preserves_state_inv (rs : list (World * Request)) (st : State) :
  state_inv st ->
  state_inv (fst (run ethers_recover MFA_SERVER_SALT authenticator_keyuri
                    QRCode_toDataURL st rs)).
Proof.
  revert st. induction rs as [|[w r] rest IH]; intros st Hinv; [exact Hinv|].
  cbn [run].
  pose proof (handle_preserves_state_inv ethers_recover MFA_SERVER_SALT authenticator_keyuri
                QRCode_toDataURL w st r Hinv) as H1.
  destruct (handle _ _ _ _ _ _ _) as [st1 resp]. cbn [fst] in H1.
  specialize (IH st1 H1).
  destruct (run _ _ _ _ _ _) as [st2 resps]. exact IH.
Qed.

(** X6. In every state the auth routes can reach from an empty store, by any
    sequence of requests, the stored addresses are lower-case and pairwise
    distinct, every user has an id of the sequence (at least 1) and an auth
    row, and the session's user ids refer to stored users. *)
Theorem reachable_state_inv (rs : list (World * Request)) :
  state_inv (fst (run ethers_recover MFA_SERVER_SALT authenticator_keyuri
                    QRCode_toDataURL initial_state rs)).
Proof. apply run_preserves_state_inv, initial_state_inv. Qed.

(** X7. While the store and the session are consistent (as in every
    reachable state), no operation of the auth routes answers 404 "User not
    found". *)
Theorem consistent_state_never_404 (w : World) (st : State) (r : Request) :
  state_inv st ->
  status (snd (handle ethers_recover MFA_SERVER_SALT authenticator_keyuri
                 QRCode_toDataURL w st r)) <> 404.
Proof.
  intros [Hdb [Hsu Hsp]].
  assert (Hfind : forall id, is_Some (users (db st) !! id) ->
            exists u a msgs, Prisma.user_findUnique_id (db st) id
                             = Some (mkUserWith u (Some a) msgs)).
  { intros id [row Hrow]. destruct (inv_auth _ Hdb id row Hrow) as [a Ha].
    unfold Prisma.user_findUnique_id, Prisma.with_relations. rewrite Hrow. cbn.
    rewrite Ha. by eauto. }
  destruct r; cbn [handle].
  - unfold post_auth. repeat case_match; done.
  - unfold get_auth, requireAuth.
    destruct (userId (session st)) as [uid|] eqn:Hu; [|done].
    destruct (negb _); [done|].
    destruct (Hsu uid eq_refl) as (row & Hrow & _).
    destruct (Hfind uid) as (u & a & msgs & ->); [by eauto|done].
  - unfold post_logout. by destruct (storeError w).
  - unfold post_mfa_initialize, requireAuth.
    destruct (userId (session st)) as [uid|] eqn:Hu; [|done].
    destruct (negb _); [done|]. destruct (negb _); [done|].
    destruct (Hsu uid eq_refl) as (row & Hrow & _).
    destruct (Hfind uid) as (u & a & msgs & ->); [by eauto|].
    repeat case_match; done.
  - unfold post_mfa_verify, requireAuth.
    destruct (userId (session st)) as [uid|] eqn:Hu; [|done].
    destruct (negb _); [done|]. destruct (MFACodeSchema_parse b); [|done].
    destruct (Hsu uid eq_refl) as (row & Hrow & _).
    destruct (Hfind uid) as (u & a & msgs & ->); [by eauto|].
    repeat case_match; done.
  - unfold post_mfa.
    destruct (MFAVerifySchema_parse b) as [[c p]|]; [|done].
    destruct (pendingUserId (session st)) as [pid|] eqn:Hp; [|done].
    destruct (_ || _); [done|]. destruct (strict_ne _ _); [done|].
    change (default 0 (Some pid)) with pid.
    destruct (Hfind pid) as (u & a & msgs & ->); [by apply Hsp|].
    repeat case_match; done.
Qed.

(** X18. Without a truthy [userId] in the session (none, or the number 0)
    every protected route answers 401 "Authentication required" and leaves
    the state as it was, whatever the request body is. *)
Theorem protected_routes_require_authentication (w : World) (s : Store) (b : Json.value) :
  Js.truthy_num (userId (session (store_state s))) = false ->
  let st := store_state s in
  let denied := error_response 401 "Authentication required" in
  get_auth st = (st, denied)
  /\ post_mfa_initialize ethers_recover MFA_SERVER_SALT authenticator_keyuri
       QRCode_toDataURL w st b = (st, denied)
  /\ post_mfa_verify MFA_SERVER_SALT w st b = (st, denied)
  /\ post_verify_signature ethers_recover w s b = (s, denied)
  /\ post_verify_signature_multi ethers_recover w s b = (s, denied).
Proof.
  intros Hfalsy. cbv zeta.
  unfold get_auth, post_mfa_initialize, post_mfa_verify, post_verify_signature,
    post_verify_signature_multi, requireAuth, requireAuthStore.
  destruct (userId (session (store_state s))) as [uid|]; [|done].
  rewrite Hfalsy. done.
Qed.

(** X19. A successful logout empties the session and touches nothing else;
    afterwards the protected routes answer 401 "Authentication required",
    completing an MFA login answers 401 "No pending MFA authentication", and
    logging out again succeeds again. *)
Theorem logout_ends_the_session (w w' : World) (st : State) (b : Json.value) :
  storeError w = false ->
  let st' := fst (post_logout w st) in
  let denied := error_response 401 "Authentication required" in
  session st' = empty_session
  /\ db st' = db st
  /\ authenticator_options st' = authenticator_options st
  /\ get_auth st' = (st', denied)
  /\ post_mfa_initialize ethers_recover MFA_SERVER_SALT authenticator_keyuri
       QRCode_toDataURL w' st' b = (st', denied)
  /\ post_mfa_verify MFA_SERVER_SALT w' st' b = (st', denied)
  /\ (is_Some (MFAVerifySchema_parse b) ->
      post_mfa MFA_SERVER_SALT w' st' b
        = (st', error_response 401 "No pending MFA authentication"))
  /\ (storeError w' = false -> post_logout w' st' = post_logout w st).
Proof.
  intros Hstore. cbv zeta.
  assert (Hl : post_logout w st
               = (with_session empty_session st,
                  ok_response (Json.Obj [("success", Json.Bool true);
                                         ("message", Json.Str "Logged out successfully")]))).
  { unfold post_logout. by rewrite Hstore. }
  rewrite !Hl. cbn [fst].
  repeat split.
  - intros [[c p] Hp]. unfold post_mfa. rewrite Hp. reflexivity.
  - intros Hstore'. unfold post_logout. by rewrite Hstore'.
Qed.

End Reachable.
(** * The address helpers *)

Lemma prefix_0x_cons (r : string) : String.prefix "0x" (String "0" (String "x" r)) = true.
Proof.
  cbn [String.prefix].
  destruct (Ascii.ascii_dec "0" "0"); [|done].
  destruct (Ascii.ascii_dec "x" "x"); [|done].
  by destruct r.
Qed.

Lemma prefix_0x_toLowerCase (s : string) :
  String.prefix "0x" s = true -> String.prefix "0x" (Js.toLowerCase s) = true.
Proof.
  destruct s as [|c1 [|c2 r]]; [discriminate| |].
  { cbn [String.prefix]. destruct (Ascii.ascii_dec "0" c1); discriminate. }
  cbn [String.prefix Js.toLowerCase].
  destruct (Ascii.ascii_dec "0" c1) as [<- | Hc1]; [|discriminate].
  destruct (Ascii.ascii_dec "x" c2) as [<- | Hc2]; [|discriminate].
  intros _. apply (prefix_0x_cons (Js.toLowerCase r)).
Qed.

(** X1. [formatAddress] is idempotent, and its result always starts with
    "0x" and is lower-case (an upper-case "0X" prefix is not recognised: a
    second "0x" is put in front of it). *)
Theorem formatAddress_idempotent (address : string) :
  formatAddress (formatAddress address) = formatAddress address
  /\ String.prefix "0x" (formatAddress address) = true
  /\ Js.toLowerCase (formatAddress address) = formatAddress address.
Proof.
  assert (Hp : String.prefix "0x" (formatAddress address) = true).
  { unfold formatAddress.
    destruct (String.prefix "0x" address) eqn:Hpre; cbn [negb].
    - by apply prefix_0x_toLowerCase.
    - apply prefix_0x_toLowerCase, (prefix_0x_cons address). }
  assert (Hl : Js.toLowerCase (formatAddress address) = formatAddress address).
  { unfold formatAddress. apply toLowerCase_idem. }
  split; [|by split].
  unfold formatAddress at 1. rewrite Hp. cbn [negb]. exact Hl.
Qed.

Example formatAddress_upper_prefix :
  formatAddress "0XAB" = "0x0xab" /\ formatAddress "0xAB" = "0xab" /\ formatAddress "AB" = "0xab".
Proof. repeat split. Qed.
(** * The signature helpers and routes *)

Section SignatureProperties.

Variable ethers_recover : string -> Json.value -> option string.

Lemma recovered_signer_verifies (message : string) (signature : Json.value)
    (signer : string) :
  recoverAddress ethers_recover message signature = Returned signer ->
  ethers_recover message signature = Some signer
  /\ verifySignature ethers_recover message signature signer = true.
Proof.
  unfold verifySignature, recoverAddress.
  destruct (ethers_recover message signature) as [r|]; [|discriminate].
  intros [= <-]. by rewrite String.eqb_refl.
Qed.

(** X2. [verifySignature] accepts exactly the addresses equal, up to letter
    case, to the recovered one; in particular it always accepts what
    [recoverAddress] returned for the same message and signature. *)
Theorem verifySignature_true_iff (message : string) (signature : Json.value)
    (expectedAddress : string) :
  (verifySignature ethers_recover message signature expectedAddress = true <->
   exists r, ethers_recover message signature = Some r
             /\ Js.toLowerCase r = Js.toLowerCase expectedAddress)
  /\ (forall signer,
        recoverAddress ethers_recover message signature = Returned signer ->
        verifySignature ethers_recover message signature signer = true
        /\ verifySignature ethers_recover message signature (Js.toLowerCase signer) = true).
Proof.
  unfold verifySignature, recoverAddress.
  destruct (ethers_recover message signature) as [r|]; split.
  - rewrite String.eqb_eq. split; [intros H; by exists r | by intros (r' & [= <-] & H)].
  - intros signer [= <-]. rewrite toLowerCase_idem, String.eqb_refl. done.
  - split; [discriminate | by intros (r' & ? & _)].
  - intros signer [=].
Qed.

(** X3. [verifyMultipleSignatures] answers entry by entry and in order: a
    malformed signature gives [{isValid: false, signer: ''}] for its entry
    only; an entry without an address (or with an empty one) is valid as
    soon as its signature recovers; otherwise validity is the
    case-insensitive comparison of [verifySignature]. *)
Theorem verifyMultipleSignatures_entrywise (signatures : list SignatureEntry) :
  List.map result_message (verifyMultipleSignatures ethers_recover signatures)
    = List.map entry_message signatures
  /\ Forall2
       (fun e r =>
          match ethers_recover (entry_message e) (Json.Str (entry_signature e)) with
          | None => result_isValid r = false /\ result_signer r = ""
          | Some signer =>
              result_signer r = signer
              /\ result_isValid r
                 = match entry_address e with
                   | Some a =>
                       if String.eqb a "" then true
                       else String.eqb (Js.toLowerCase signer) (Js.toLowerCase a)
                   | None => true
                   end
          end)
       signatures (verifyMultipleSignatures ethers_recover signatures).
Proof.
  unfold verifyMultipleSignatures. split.
  - rewrite List.map_map. apply List.map_ext. intros e.
    by destruct (recoverAddress _ _ _).
  - induction signatures as [|e rest IH]; [constructor|].
    cbn [List.map]. constructor; [|exact IH].
    unfold verifySignature, recoverAddress, Js.truthy_str.
    destruct (ethers_recover _ _) as [signer|]; [|done].
    split; [reflexivity|].
    destruct (entry_address e) as [a|]; [|reflexivity].
    cbn [result_isValid]. by destruct (String.eqb a "").
Qed.

End SignatureProperties.

Lemma message_createMany_rows (t : Z) (ds : list MessageData) (s : Store) :
  messages (db (store_state (message_createMany t s ds)))
    = (List.rev (stored_rows t (message_seq s) ds) ++ messages (db (store_state s)))%list
  /\ message_seq (message_createMany t s ds) = message_seq s + Z.of_nat (List.length ds)
  /\ users (db (store_state (message_createMany t s ds))) = users (db (store_state s))
  /\ auths (db (store_state (message_createMany t s ds))) = auths (db (store_state s))
  /\ user_seq (db (store_state (message_createMany t s ds))) = user_seq (db (store_state s))
  /\ session (store_state (message_createMany t s ds)) = session (store_state s)
  /\ authenticator_options (store_state (message_createMany t s ds))
     = authenticator_options (store_state s).
Proof.
  revert s. induction ds as [|d rest IH]; intros s.
  - cbn. repeat split; lia.
  - change (message_createMany t s (d :: rest))
      with (message_createMany t (message_create t s d) rest).
    destruct (IH (message_create t s d)) as (Hm & Hseq & Hu & Ha & Hs & Hsess & Ho).
    rewrite Hm, Hseq, Hu, Ha, Hs, Hsess, Ho.
    cbn [stored_rows List.rev List.length message_create message_seq store_state
         with_db db messages users auths user_seq session authenticator_options].
    rewrite <- List.app_assoc. repeat split. lia.
Qed.

Section SignatureRouteProperties.

Variable ethers_recover : string -> Json.value -> option string.

(** X4. [POST /verify-signature] either fails without touching the store, or
    answers 200 with [isValid: true] and the recovered signer, and stores
    exactly one message row for the session's user, marked valid: the route
    never reports or records an invalid signature. *)
Theorem verify_signature_never_invalid (w : World) (s : Store) (b : Json.value) :
  let s' := fst (post_verify_signature ethers_recover w s b) in
  let response := snd (post_verify_signature ethers_recover w s b) in
  (status response <> 200 /\ s' = s)
  \/ (exists uid message signature signer,
        userId (session (store_state s)) = Some uid
        /\ VerifySignatureSchema_parse b = Some (message, signature)
        /\ ethers_recover message (Json.Str signature) = Some signer
        /\ response = ok_response (Json.Obj
             [("success", Json.Bool true); ("isValid", Json.Bool true);
              ("signer", Json.Str signer); ("originalMessage", Json.Str message)])
        /\ s' = message_create (now w) s (mkMessageData uid message signature signer true)).
Proof.
  cbv zeta. unfold post_verify_signature, requireAuthStore.
  destruct (userId (session (store_state s))) as [uid|] eqn:Hu; [|left; by split].
  destruct (negb (Js.truthy_num (Some uid))) eqn:Ht; [left; by split|].
  destruct (VerifySignatureSchema_parse b) as [[message signature]|] eqn:Hp; [|left; by split].
  destruct (recoverAddress ethers_recover message (Json.Str signature)) as [signer|] eqn:Hr;
    [|left; by split].
  right. exists uid, message, signature, signer.
  destruct (recovered_signer_verifies ethers_recover _ _ _ Hr) as [Hrec ->].
  apply negb_false_iff in Ht. by rewrite Ht.
Qed.

Lemma verify_all_inr (signatures : list (string * string)) results :
  verify_all ethers_recover signatures = inr results ->
  Forall2 (fun ms r => r = (fst ms, snd ms,
                            default "" (ethers_recover (fst ms) (Json.Str (snd ms))), true)
                       /\ is_Some (ethers_recover (fst ms) (Json.Str (snd ms))))
          signatures results.
Proof.
  revert results. induction signatures as [|[message signature] rest IH]; intros results.
  - intros [= <-]. constructor.
  - cbn [verify_all].
    destruct (recoverAddress ethers_recover message (Json.Str signature)) as [signer|] eqn:Hr;
      [|discriminate].
    destruct (recovered_signer_verifies ethers_recover _ _ _ Hr) as [Hrec ->]. cbn [negb].
    destruct (verify_all ethers_recover rest) as [|results'] eqn:Hrest; [discriminate|].
    intros [= <-]. constructor; [|by apply IH].
    cbn [fst snd]. rewrite Hrec. by split.
Qed.

Lemma verify_all_inl (signatures : list (string * string)) response :
  verify_all ethers_recover signatures = inl response ->
  status response = 400
  /\ Exists (fun ms => ethers_recover (fst ms) (Json.Str (snd ms)) = None) signatures.
Proof.
  induction signatures as [|[message signature] rest IH]; [discriminate|].
  cbn [verify_all].
  destruct (recoverAddress ethers_recover message (Json.Str signature)) as [signer|] eqn:Hr.
  - destruct (recovered_signer_verifies ethers_recover _ _ _ Hr) as [_ ->]. cbn [negb].
    destruct (verify_all ethers_recover rest) as [resp|]; [|discriminate].
    intros [= <-]. destruct (IH eq_refl) as [Hs He]. split; [exact Hs|by right].
  - intros [= <-]. split; [reflexivity|]. left.
    unfold recoverAddress in Hr. cbn [fst snd].
    by destruct (ethers_recover message (Json.Str signature)).
Qed.

(** X5. [POST /verify-signature-multi] is all or nothing.  It answers 200
    only when the body is a non-empty array all of whose signatures
    recover; it then stores one valid row per entry, in order, and reports
    their number.  In every other case (an entry that does not recover, an
    empty array, a malformed body, no session) nothing is stored. *)
Theorem verify_signature_multi_all_or_nothing (w : World) (s : Store) (b : Json.value) :
  let s' := fst (post_verify_signature_multi ethers_recover w s b) in
  let response := snd (post_verify_signature_multi ethers_recover w s b) in
  (status response <> 200 /\ s' = s)
  \/ (exists uid signatures,
        userId (session (store_state s)) = Some uid
        /\ VerifySignatureMultiSchema_parse b = Some signatures
        /\ signatures <> []
        /\ Forall (fun ms => is_Some (ethers_recover (fst ms) (Json.Str (snd ms)))) signatures
        /\ Json.field "totalVerified" (body response)
           = Some (Json.Num (Z.of_nat (List.length signatures)))
        /\ messages (db (store_state s'))
           = (List.rev (stored_rows (now w) (message_seq s)
                 (List.map (fun ms =>
                    mkMessageData uid (fst ms) (snd ms)
                      (default "" (ethers_recover (fst ms) (Json.Str (snd ms)))) true)
                    signatures))
              ++ messages (db (store_state s)))%list
        /\ message_seq s' = message_seq s + Z.of_nat (List.length signatures)).
Proof.
  cbv zeta. unfold post_verify_signature_multi, requireAuthStore.
  destruct (userId (session (store_state s))) as [uid|] eqn:Hu; [|left; by split].
  destruct (negb (Js.truthy_num (Some uid))) eqn:Ht; [left; by split|].
  destruct (VerifySignatureMultiSchema_parse b) as [signatures|] eqn:Hp; [|left; by split].
  destruct (List.length signatures =? 0)%nat eqn:Hlen; [left; by split|].
  destruct (verify_all ethers_recover signatures) as [resp|results] eqn:Hall.
  - left. destruct (verify_all_inl _ _ Hall) as [Hs _]. cbn [fst snd]. rewrite Hs. by split.
  - right. exists uid, signatures.
    apply negb_false_iff in Ht. rewrite Ht. cbn [fst snd].
    pose proof (verify_all_inr _ _ Hall) as HF.
    assert (Hres : List.map (result_data uid) results
                   = List.map (fun ms =>
                       mkMessageData uid (fst ms) (snd ms)
                         (default "" (ethers_recover (fst ms) (Json.Str (snd ms)))) true)
                       signatures).
    { clear -HF. induction HF as [|ms r l l' [-> _] _ IH]; [reflexivity|].
      cbn [List.map]. by rewrite IH. }
    assert (Hn : List.length results = List.length signatures).
    { symmetry. by eapply Forall2_length. }
    destruct (message_createMany_rows (now w) (List.map (result_data uid) results) s)
      as (Hm & Hseq & _).
    rewrite Hm, Hseq, Hres, List.length_map, Hn.
    repeat split.
    + intros ->. discriminate.
    + clear -HF. induction HF as [|ms r l l' [_ H] _ IH]; constructor; done.
Qed.

End SignatureRouteProperties.

(** * Login: users and sessions *)

Section LoginProperties.

Variable ethers_recover : string -> Json.value -> option string.

(** X8. Login does not depend on the letter case of the claimed address: two
    requests that differ only in the case of [address] give the same
    response and the same state. *)
Theorem login_case_insensitive (w : World) (st : State) (b b' : Json.value)
    (message signature address address' : string) :
  LoginSchema_parse b = Some (message, signature, address) ->
  LoginSchema_parse b' = Some (message, signature, address') ->
  Js.toLowerCase address = Js.toLowerCase address' ->
  post_auth ethers_recover w st b = post_auth ethers_recover w st b'.
Proof.
  intros Hb Hb' Hcase. unfold post_auth, verifySignature. rewrite Hb, Hb', Hcase.
  reflexivity.
Qed.

(** X9. The first valid login of an address creates exactly one user row,
    keyed by the next id of the sequence, holding the lower-cased address and
    the role "user", together with its auth row (MFA off, not awaiting, no
    timeout); the session becomes Authenticated as that user and the
    response carries the new user. *)
Theorem first_login_creates_user (w : World) (st : State) (b : Json.value)
    (signature address recovered : string) :
  LoginSchema_parse b = Some ("login", signature, address) ->
  ethers_recover "login" (Json.Str signature) = Some recovered ->
  Js.toLowerCase recovered = Js.toLowerCase address ->
  Prisma.user_findUnique_address (db st) (Js.toLowerCase address) = None ->
  storeError w = false ->
  let id := user_seq (db st) + 1 in
  let st' := fst (post_auth ethers_recover w st b) in
  let response := snd (post_auth ethers_recover w st b) in
  users (db st') = <[id := mkUserRow (Js.toLowerCase address) "user"]> (users (db st))
  /\ auths (db st') = <[id := mkAuth false false None]> (auths (db st))
  /\ user_seq (db st') = id
  /\ messages (db st') = messages (db st)
  /\ session st' = set_address (Some (Js.toLowerCase address))
                     (set_userId (Some id) (session st))
  /\ status response = 200
  /\ Json.field "mfa" (body response) = Some (Json.Bool false)
  /\ Json.field "user" (body response)
     = Some (user_json (mkUser id (Js.toLowerCase address) "user")).
Proof.
  intros Hb Hrec Hcase Hnone Hstore. cbv zeta.
  unfold post_auth, verifySignature, recoverAddress.
  rewrite Hb, Hrec, Hcase, !String.eqb_refl, Hnone, Hstore. cbn [negb].
  unfold Prisma.user_create, user_auth_mfa.
  cbn [Prisma.with_relations uw_auth uw_user user_of user_id user_address auths].
  rewrite lookup_insert_eq. cbn [auth_mfa]. done.
Qed.

(** X10. A login for an address that already has a row, in whatever letter
    case it is claimed, adds no user: the [users] table and the sequence are
    left as they were. *)
Theorem login_existing_user_adds_no_row (w : World) (st : State) (b : Json.value)
    (message signature address : string) (id : Z) (row : UserRow) :
  LoginSchema_parse b = Some (message, signature, address) ->
  users (db st) !! id = Some row ->
  row_address row = Js.toLowerCase address ->
  let st' := fst (post_auth ethers_recover w st b) in
  users (db st') = users (db st) /\ user_seq (db st') = user_seq (db st)
  /\ messages (db st') = messages (db st).
Proof.
  intros Hb Hrow Haddr. cbv zeta. unfold post_auth. rewrite Hb.
  destruct (negb (String.eqb message "login")); [done|].
  destruct (negb (verifySignature _ _ _ _)); [done|].
  destruct (Prisma.user_findUnique_address (db st) (Js.toLowerCase address)) as [user|] eqn:Hf.
  2:{ exfalso. by eapply user_findUnique_address_None. }
  destruct (user_auth_mfa user); [|by destruct (storeError w)].
  destruct (Prisma.auth_update _ _ _) as [db2|] eqn:Hup; [|done].
  apply auth_update_users in Hup as (Hu & Hs & Hm).
  by destruct (storeError w).
Qed.

End LoginProperties.

(** * The derived secret as an authenticator key *)

Lemma base32_value_valid (c : ascii) :
  is_base32_char c = true -> exists v, Otplib.base32_value c = Some v.
Proof.
  unfold is_base32_char, Otplib.base32_value.
  destruct ((65 <=? _) && (_ <=? 90)); [by eauto|].
  destruct ((50 <=? _) && (_ <=? 55)); [by eauto|discriminate].
Qed.

Lemma base32_decode_valid (s : string) (acc nbits : Z) :
  Forall (fun c => is_base32_char c = true) (list_ascii_of_string s) ->
  0 <= nbits < 8 ->
  exists bs, Otplib.base32_decode acc nbits s = Some bs
             /\ Z.of_nat (List.length bs) = (nbits + 5 * Z.of_nat (String.length s)) / 8.
Proof.
  revert acc nbits. induction s as [|c r IH]; intros acc nbits Hs Hn.
  - exists []. split; [reflexivity|]. cbn. rewrite Z.add_0_r. symmetry. apply Z.div_small. lia.
  - cbn [list_ascii_of_string] in Hs. apply Forall_cons in Hs as [Hc Hr].
    destruct (base32_value_valid c Hc) as [v Hv].
    cbn [Otplib.base32_decode String.length]. rewrite Hv.
    destruct (8 <=? nbits + 5) eqn:Hge.
    + apply Z.leb_le in Hge.
      destruct (IH ((acc * 32 + v) mod 2 ^ (nbits + 5 - 8)) (nbits + 5 - 8) Hr) as (bs & -> & Hlen);
        [lia|].
      eexists. split; [reflexivity|]. cbn [List.length].
      rewrite Nat2Z.inj_succ, Hlen, Nat2Z.inj_succ.
      replace (nbits + 5 * Z.succ (Z.of_nat (String.length r)))
        with (nbits + 5 - 8 + 5 * Z.of_nat (String.length r) + 1 * 8) by lia.
      rewrite Z.div_add by lia. lia.
    + apply Z.leb_gt in Hge.
      destruct (IH (acc * 32 + v) (nbits + 5) Hr) as (bs & -> & Hlen); [lia|].
      exists bs. split; [reflexivity|]. rewrite Hlen, Nat2Z.inj_succ. f_equal. lia.
Qed.

Lemma generateMFASecret_chars (env_salt : option string) (address : string) :
  String.length (generateMFASecret env_salt address) = 32%nat
  /\ Forall (fun c => is_base32_char c = true)
            (list_ascii_of_string (generateMFASecret env_salt address)).
Proof.
  split.
  - rewrite generateMFASecret_bytes, string_length_of_list, List.length_map.
    apply sha256_digest_bytes.
  - rewrite generateMFASecret_bytes, list_ascii_of_string_of_list_ascii.
    apply Forall_forall. intros c [b [-> _]]%list_elem_of_fmap.
    apply char_at_base32Chars.
Qed.

Lemma generateMFASecret_lower (env_salt : option string) (address : string) :
  generateMFASecret env_salt (Js.toLowerCase address) = generateMFASecret env_salt address.
Proof. unfold generateMFASecret. by rewrite toLowerCase_idem. Qed.

Lemma totpCheckWithWindow_current (key : list Z) (epoch : Z) (window : nat) :
  Otplib.totpCheckWithWindow (Otplib.totpToken key epoch) key epoch window = true.
Proof.
  unfold Otplib.totpCheckWithWindow, Otplib.totpCheck. by rewrite String.eqb_refl.
Qed.

Lemma derived_secret_key (env_salt : option string) (address : string) :
  exists key,
    Otplib.keyDecoder (generateMFASecret env_salt address) = Some key
    /\ List.length key = 20%nat.
Proof.
  destruct (generateMFASecret_chars env_salt address) as [Hlen Hchars].
  destruct (base32_decode_valid _ 0 0 Hchars) as (key & Hkey & Hklen); [lia|].
  exists key. split; [exact Hkey|].
  rewrite Hlen in Hklen. change ((0 + 5 * Z.of_nat 32) / 8) with 20 in Hklen. lia.
Qed.

Lemma generate_then_verify (secret : string) (key : list Z) (t : Z) (o : Otplib.options) :
  Otplib.keyDecoder secret = Some key ->
  Otplib.generate secret t = Some (Otplib.totpToken key t)
  /\ Otplib.verify o (Otplib.totpToken key t) secret t = Some true.
Proof.
  intros Hkey. unfold Otplib.generate, Otplib.verify.
  by rewrite Hkey, totpCheckWithWindow_current.
Qed.


(** * Login with MFA, end to end *)

Lemma to_hex_nonempty (bs : list Z) : bs <> [] -> Bytes.to_hex bs <> "".
Proof. by destruct bs. Qed.

Section MfaLoginProperties.

Variable ethers_recover : string -> Json.value -> option string.
Variable MFA_SERVER_SALT : option string.

Lemma login_mfa_challenge_facts (w : World) (st : State) (b : Json.value)
    (message signature address : string) :
  LoginSchema_parse b = Some (message, signature, address) ->
  Json.field "mfa" (body (snd (post_auth ethers_recover w st b))) = Some (Json.Bool true) ->
  exists uid row a,
    users (db st) !! uid = Some row
    /\ row_address row = Js.toLowerCase address
    /\ pendingUserId (session (fst (post_auth ethers_recover w st b))) = Some uid
    /\ mfaBonusPhrase (session (fst (post_auth ethers_recover w st b)))
       = Some (generateBonusPhrase (randomBytes w))
    /\ auths (db (fst (post_auth ethers_recover w st b))) !! uid
       = Some (mkAuth true (auth_awaitingMfa a) (Some (now w + 5 * 60 * 1000)))
    /\ users (db (fst (post_auth ethers_recover w st b))) = users (db st).
Proof.
  intros Hb. unfold post_auth. rewrite Hb.
  destruct (negb (String.eqb message "login")); [discriminate|].
  destruct (negb (verifySignature _ _ _ _)); [discriminate|].
  destruct (Prisma.user_findUnique_address (db st) (Js.toLowerCase address)) as [user|] eqn:Hf.
  - apply user_findUnique_address_Some in Hf as (id & r & Hr & Ha & ->).
    unfold user_auth_mfa.
    cbn [Prisma.with_relations uw_user uw_auth user_of user_id user_address].
    destruct (auths (db st) !! id) as [a|] eqn:Hauth; [|by destruct (storeError w)].
    destruct (auth_mfa a) eqn:Hmfa; [|by destruct (storeError w)].
    destruct (Prisma.auth_update _ _ _) as [db2|] eqn:Hup; [|discriminate].
    intros _.
    pose proof (auth_update_users _ _ _ _ Hup) as (Hu & _).
    apply auth_update_lookup in Hup as (a0 & Ha0 & Hnew & _).
    rewrite Hauth in Ha0. injection Ha0 as <-. rewrite Hmfa in Hnew.
    exists id, r, a. by destruct (storeError w).
  - unfold Prisma.user_create, user_auth_mfa.
    cbn [Prisma.with_relations uw_user uw_auth user_of user_id user_address auths].
    rewrite lookup_insert_eq. cbn [auth_mfa].
    by destruct (storeError w).
Qed.

(** X11. When a login is answered with [mfa: true], the response carries
    nothing but the bonus phrase (no [user], no [messages]); that phrase is
    the one stored in the session next to the pending user's id; the user
    existed with MFA enabled, no row was created, and the user's
    [mfaTimeoutTimestamp] is five minutes from now. *)
Theorem login_mfa_challenge (w : World) (st : State) (b : Json.value)
    (message signature address : string) :
  LoginSchema_parse b = Some (message, signature, address) ->
  Json.field "mfa" (body (snd (post_auth ethers_recover w st b))) = Some (Json.Bool true) ->
  let st' := fst (post_auth ethers_recover w st b) in
  let response := snd (post_auth ethers_recover w st b) in
  let phrase := generateBonusPhrase (randomBytes w) in
  exists uid row a,
    users (db st) !! uid = Some row
    /\ row_address row = Js.toLowerCase address
    /\ auths (db st) !! uid = Some a
    /\ auth_mfa a = true
    /\ response = ok_response (Json.Obj
         [("success", Json.Bool true); ("mfa", Json.Bool true);
          ("mfa_bonus_phrase", Json.Str phrase)])
    /\ pendingUserId (session st') = Some uid
    /\ mfaBonusPhrase (session st') = Some phrase
    /\ auths (db st') !! uid
       = Some (mkAuth true (auth_awaitingMfa a) (Some (now w + 5 * 60 * 1000)))
    /\ users (db st') = users (db st)
    /\ authenticator_options st' = authenticator_options st.
Proof.
  intros Hb. cbv zeta. unfold post_auth. rewrite Hb.
  destruct (negb (String.eqb message "login")); [discriminate|].
  destruct (negb (verifySignature _ _ _ _)); [discriminate|].
  destruct (Prisma.user_findUnique_address (db st) (Js.toLowerCase address)) as [user|] eqn:Hf.
  - apply user_findUnique_address_Some in Hf as (id & r & Hr & Ha & ->).
    unfold user_auth_mfa.
    cbn [Prisma.with_relations uw_user uw_auth user_of user_id user_address].
    destruct (auths (db st) !! id) as [a|] eqn:Hauth; [|by destruct (storeError w)].
    destruct (auth_mfa a) eqn:Hmfa; [|by destruct (storeError w)].
    destruct (Prisma.auth_update _ _ _) as [db2|] eqn:Hup; [|discriminate].
    destruct (storeError w); [discriminate|]. intros _.
    pose proof (auth_update_users _ _ _ _ Hup) as (Hu & _).
    apply auth_update_lookup in Hup as (a0 & Ha0 & Hnew & _).
    rewrite Hauth in Ha0. injection Ha0 as <-. rewrite Hmfa in Hnew.
    exists id, r, a. by repeat split.
  - unfold Prisma.user_create, user_auth_mfa.
    cbn [Prisma.with_relations uw_user uw_auth user_of user_id user_address auths].
    rewrite lookup_insert_eq. cbn [auth_mfa].
    by destruct (storeError w).
Qed.


(** X13. A login answered with [mfa: true] can be completed: within the five
    minutes, [POST /auth/mfa] with the phrase of the response and a code
    generated from the derived secret at most two steps away from the
    current one answers 200 and leaves the session Authenticated as the
    pending user, without its pending fields. *)
Theorem mfa_login_round_trip (w1 w2 : World) (st : State) (b1 b2 : Json.value)
    (message signature addr mfa_code : string) (k : Z) :
  db_inv (db st) ->
  LoginSchema_parse b1 = Some (message, signature, addr) ->
  Json.field "mfa" (body (snd (post_auth ethers_recover w1 st b1))) = Some (Json.Bool true) ->
  randomBytes w1 <> [] ->
  now w2 <= now w1 + 5 * 60 * 1000 ->
  -2 <= k <= 2 ->
  Otplib.generate (generateMFASecret MFA_SERVER_SALT addr) (now w2 + k * 30000)
    = Some mfa_code ->
  MFAVerifySchema_parse b2
    = Some (mfa_code, Some (generateBonusPhrase (randomBytes w1))) ->
  let st1 := fst (post_auth ethers_recover w1 st b1) in
  let st2 := fst (post_mfa MFA_SERVER_SALT w2 st1 b2) in
  status (snd (post_mfa MFA_SERVER_SALT w2 st1 b2)) = 200
  /\ userId (session st2) = pendingUserId (session st1)
  /\ address (session st2) = Some (Js.toLowerCase addr)
  /\ holds_pending_fields (session st2) = false.
Proof.
  intros Hinv Hb1 Hmfa Hrand Htime Hk Hgen Hb2. cbv zeta.
  destruct (login_mfa_challenge_facts w1 st b1 message signature addr Hb1 Hmfa)
    as (uid & row & a & Hrow & Haddr & Hp & Hphrase & Hnew & Husers).
  set (st1 := fst (post_auth ethers_recover w1 st b1)) in *.
  destruct (derived_secret_key MFA_SERVER_SALT addr) as (key & Hkey & _).
  destruct (generate_then_verify _ key (now w2 + k * 30000) Otplib.defaultOptions Hkey)
    as [Hgen' _].
  rewrite Hgen in Hgen'. injection Hgen' as ->.
  assert (Huid : uid <> 0).
  { apply (inv_ids _ Hinv) in Hrow. lia. }
  assert (Hrow1 : users (db st1) !! uid = Some row) by (by rewrite Husers).
  assert (Hkey1 : Otplib.keyDecoder (generateMFASecret MFA_SERVER_SALT (row_address row))
                  = Some key).
  { by rewrite Haddr, generateMFASecret_lower. }
  assert (Hpend : in_pending_state (session st1) = true).
  { unfold in_pending_state. rewrite Hp, Hphrase. cbn.
    apply andb_true_iff. split; apply negb_true_iff.
    - by apply Z.eqb_neq.
    - apply String.eqb_neq. by apply to_hex_nonempty. }
  assert (Htimed : timed_out w2 (Some (now w1 + 5 * 60 * 1000)) = false).
  { cbn [timed_out]. apply Z.ltb_ge. exact Htime. }
  unfold post_mfa. rewrite Hb2.
  unfold in_pending_state in Hpend. apply andb_true_iff in Hpend as [-> ->]. cbn [negb orb].
  rewrite Hphrase. cbn [strict_ne]. rewrite String.eqb_refl. cbn [negb].
  rewrite Hp. change (default 0 (Some uid)) with uid.
  unfold Prisma.user_findUnique_id. rewrite Hrow1.
  cbn [fmap option_fmap option_map Prisma.with_relations user_of user_id user_address].
  rewrite Hnew. cbn [auth_mfaTimeoutTimestamp]. rewrite Htimed.
  unfold Otplib.verify. rewrite Hkey1.
  cbn [with_options authenticator_options Otplib.set_options Otplib.window
       Otplib.allOptions_window].
  rewrite totpCheckWithWindow_2 by exact Hk. cbn [negb].
  unfold Prisma.auth_update. cbn [with_session with_options db auths]. rewrite Hnew.
  by rewrite Haddr.
Qed.

End MfaLoginProperties.

(** * MFA enrollment, end to end *)

Section EnrollmentProperties.

Variable ethers_recover : string -> Json.value -> option string.
Variable MFA_SERVER_SALT : option string.
Variable authenticator_keyuri : string -> string -> string -> string.
Variable QRCode_toDataURL : string -> option string.

(** X15. [POST /auth/mfa/initialize] on an Authenticated session, with the
    message "enableMFA" signed by the session's user, succeeds as soon as the
    QR code renders: it answers [{ success: true, qrCode }] with the rendering
    of the provisioning URI of the derived secret, and sets [awaitingMfa] in
    the user's auth row, changing nothing else. *)
Theorem mfa_initialize_succeeds (w : World) (st : State) (b : Json.value)
    (uid : Z) (row : UserRow) (a : Auth) (signature : Json.value) (qrCode : string) :
  userId (session st) = Some uid ->
  uid <> 0 ->
  users (db st) !! uid = Some row ->
  auths (db st) !! uid = Some a ->
  Json.field "message" b = Some (Json.Str "enableMFA") ->
  Json.field "signature" b = Some signature ->
  verifySignature ethers_recover "enableMFA" signature (row_address row) = true ->
  QRCode_toDataURL
    (authenticator_keyuri (row_address row) "CAT Web3Signer"
       (generateMFASecret MFA_SERVER_SALT (row_address row))) = Some qrCode ->
  post_mfa_initialize ethers_recover MFA_SERVER_SALT authenticator_keyuri
    QRCode_toDataURL w st b
  = (with_db (mkDb (users (db st))
                   (<[uid := mkAuth (auth_mfa a) true (auth_mfaTimeoutTimestamp a)]>
                      (auths (db st)))
                   (messages (db st)) (user_seq (db st))) st,
     ok_response (Json.Obj [("success", Json.Bool true); ("qrCode", Json.Str qrCode)])).
Proof.
  intros Hu Hnz Hrow Hauth Hmsg Hsig Hvalid Hqr.
  unfold post_mfa_initialize, requireAuth. rewrite Hu.
  unfold Js.truthy_num. apply Z.eqb_neq in Hnz. rewrite Hnz. cbn [negb].
  rewrite Hmsg, Hsig. unfold is_enableMFA.
  change (String.eqb "enableMFA" "enableMFA") with true. cbn [negb].
  change (default Json.Null (Some signature)) with signature.
  unfold Prisma.user_findUnique_id. rewrite Hrow.
  cbn [fmap option_fmap option_map Prisma.with_relations uw_user user_of user_id user_address].
  rewrite Hvalid. cbn [negb]. rewrite Hqr.
  destruct (derived_secret_key MFA_SERVER_SALT (row_address row)) as (key & Hkey & _).
  destruct (generate_then_verify _ key (now w) (authenticator_options st) Hkey) as [-> ->].
  unfold Prisma.auth_update. rewrite Hauth. reflexivity.
Qed.

(** X16. [POST /auth/mfa/verify] changes the state only when it answers 200,
    and then only the auth row of the session's user, which was awaiting
    enrollment: it becomes [{ mfa: true, awaitingMfa: false }] with its
    timeout kept. *)
Theorem mfa_verify_effect (w : World) (st : State) (b : Json.value) :
  let st' := fst (post_mfa_verify MFA_SERVER_SALT w st b) in
  let response := snd (post_mfa_verify MFA_SERVER_SALT w st b) in
  (status response <> 200 /\ st' = st)
  \/ (exists uid a,
        userId (session st) = Some uid
        /\ auths (db st) !! uid = Some a
        /\ auth_awaitingMfa a = true
        /\ response = ok_response (Json.Obj [("success", Json.Bool true);
                                             ("message", Json.Str "MFA enabled successfully")])
        /\ st' = with_db (mkDb (users (db st))
                               (<[uid := mkAuth true false (auth_mfaTimeoutTimestamp a)]>
                                  (auths (db st)))
                               (messages (db st)) (user_seq (db st))) st).
Proof.
  cbv zeta. unfold post_mfa_verify, requireAuth.
  destruct (userId (session st)) as [uid|] eqn:Hu; [|left; by split].
  destruct (negb (Js.truthy_num (Some uid))); [left; by split|].
  destruct (MFACodeSchema_parse b) as [mfa_code|]; [|left; by split].
  destruct (Prisma.user_findUnique_id _ _) as [[u [auth|] msgs]|] eqn:Hf;
    [|left; by split|left; by split].
  apply user_findUnique_id_Some in Hf as (row & Hrow & -> & Hauth).
  destruct (auth_awaitingMfa auth) eqn:Hawait; cbn [negb]; [|left; by split].
  destruct (Otplib.verify _ _ _ _) as [[|]|]; cbn [negb]; [|left; by split|left; by split].
  unfold Prisma.auth_update. cbn [user_of user_id]. rewrite <- Hauth.
  right. exists uid, auth. by repeat split.
Qed.

(** X17. Enrollment round trip: after a successful
    [POST /auth/mfa/initialize], [POST /auth/mfa/verify] with the code the
    derived secret gives at that moment answers 200 and leaves the user's
    auth row with [mfa = true] and [awaitingMfa = false], whatever the
    options of the authenticator are. *)
Theorem enrollment_round_trip (w1 w2 : World) (st : State) (b1 b2 : Json.value)
    (uid : Z) (row : UserRow) (mfa_code : string) :
  userId (session st) = Some uid ->
  users (db st) !! uid = Some row ->
  status (snd (post_mfa_initialize ethers_recover MFA_SERVER_SALT authenticator_keyuri
                 QRCode_toDataURL w1 st b1)) = 200 ->
  Otplib.generate (generateMFASecret MFA_SERVER_SALT (row_address row)) (now w2)
    = Some mfa_code ->
  MFACodeSchema_parse b2 = Some mfa_code ->
  let st1 := fst (post_mfa_initialize ethers_recover MFA_SERVER_SALT authenticator_keyuri
                    QRCode_toDataURL w1 st b1) in
  let st2 := fst (post_mfa_verify MFA_SERVER_SALT w2 st1 b2) in
  status (snd (post_mfa_verify MFA_SERVER_SALT w2 st1 b2)) = 200
  /\ exists a, auths (db st2) !! uid = Some a
               /\ auth_mfa a = true /\ auth_awaitingMfa a = false.
Proof.
  intros Hu Hrow H200 Hgen Hb2. cbv zeta.
  assert (Hst1 : exists a,
    fst (post_mfa_initialize ethers_recover MFA_SERVER_SALT authenticator_keyuri
           QRCode_toDataURL w1 st b1)
    = with_db (mkDb (users (db st))
                    (<[uid := mkAuth (auth_mfa a) true (auth_mfaTimeoutTimestamp a)]>
                       (auths (db st)))
                    (messages (db st)) (user_seq (db st))) st
    /\ uid <> 0).
  { clear Hgen Hb2. revert H200. unfold post_mfa_initialize, requireAuth. rewrite Hu.
    destruct (negb (Js.truthy_num (Some uid))) eqn:Ht; [discriminate|].
    destruct (negb (is_enableMFA _)); [discriminate|].
    unfold Prisma.user_findUnique_id. rewrite Hrow.
    cbn [fmap option_fmap option_map Prisma.with_relations uw_user user_of user_id user_address].
    destruct (negb (verifySignature _ _ _ _)); [discriminate|].
    destruct (QRCode_toDataURL _); [|discriminate].
    destruct (Otplib.generate _ _); [|discriminate].
    destruct (Otplib.verify _ _ _ _); [|discriminate].
    unfold Prisma.auth_update.
    destruct (auths (db st) !! uid) as [a|]; [|discriminate].
    intros _. exists a. split; [reflexivity|].
    apply negb_false_iff, negb_true_iff, Z.eqb_neq in Ht. exact Ht. }
  destruct Hst1 as (a & -> & Hnz).
  destruct (derived_secret_key MFA_SERVER_SALT (row_address row)) as (key & Hkey & _).
  destruct (generate_then_verify _ key (now w2) (authenticator_options st) Hkey)
    as [Hgen' Hver].
  rewrite Hgen in Hgen'. injection Hgen' as ->.
  unfold post_mfa_verify, requireAuth. cbn [with_db session db authenticator_options].
  rewrite Hu. unfold Js.truthy_num. apply Z.eqb_neq in Hnz. rewrite Hnz. cbn [negb].
  rewrite Hb2. unfold Prisma.user_findUnique_id. cbn [users auths]. rewrite Hrow.
  cbn [fmap option_fmap option_map Prisma.with_relations user_of user_id user_address auths].
  rewrite lookup_insert_eq. cbn [auth_awaitingMfa negb].
  rewrite Hver. cbn [negb].
  unfold Prisma.auth_update. cbn [auths]. rewrite lookup_insert_eq.
  cbn [fst snd db with_db auths]. split; [reflexivity|].
  eexists. rewrite lookup_insert_eq. by repeat split.
Qed.

End EnrollmentProperties.

(** * The bonus phrase *)

Lemma hex_digit_lower (d : Z) :
  0 <= d < 16 ->
  Js.hex_value (Bytes.hex_digit d) = Some d
  /\ Js.lower_char (Bytes.hex_digit d) = Bytes.hex_digit d.
Proof.
  intros H.
  assert (Hd : d ∈ (Z.of_nat <$> seq 0 16)).
  { apply list_elem_of_fmap. exists (Z.to_nat d). split; [lia|].
    apply list_elem_of_In, in_seq. lia. }
  cbn in Hd. repeat (apply elem_of_cons in Hd as [-> | Hd]; [split; reflexivity|]).
  by apply elem_of_nil in Hd.
Qed.

(** X20. The bonus phrase is the lower-case hexadecimal text of the random
    bytes, two digits per byte: 32 characters for the 16 bytes the login
    draws, and never empty. *)
Theorem generateBonusPhrase_hex (random : list Z) :
  Forall Bytes.is_byte random ->
  String.length (generateBonusPhrase random) = (2 * List.length random)%nat
  /\ Forall (fun c => is_Some (Js.hex_value c) /\ Js.lower_char c = c)
            (list_ascii_of_string (generateBonusPhrase random))
  /\ (List.length random = 16%nat -> String.length (generateBonusPhrase random) = 32%nat).
Proof.
  unfold generateBonusPhrase. intros Hbytes.
  assert (Hlen : String.length (Bytes.to_hex random) = (2 * List.length random)%nat).
  { clear Hbytes. induction random as [|x r IH]; [reflexivity|].
    cbn [Bytes.to_hex String.length List.length]. rewrite IH. lia. }
  split; [exact Hlen|]. split; [|intros H16; rewrite Hlen, H16; reflexivity].
  clear Hlen.
  induction Hbytes as [|x r Hx _ IH]; [constructor|].
  cbn [Bytes.to_hex list_ascii_of_string]. unfold Bytes.is_byte in Hx.
  assert (Hhi : 0 <= x / 16 < 16).
  { split; [apply Z.div_pos; lia | apply Z.div_lt_upper_bound; lia]. }
  assert (Hlo : 0 <= x mod 16 < 16) by (apply Z.mod_pos_bound; lia).
  destruct (hex_digit_lower _ Hhi) as [Hv1 Hl1].
  destruct (hex_digit_lower _ Hlo) as [Hv2 Hl2].
  constructor; [split; [rewrite Hv1; by eauto | exact Hl1]|].
  constructor; [split; [rewrite Hv2; by eauto | exact Hl2]|].
  exact IH.
Qed.

Lemma generateBonusPhrase_hex_witness :
  let random := randomBytes (Fixture.world Fixture.t0) in
  String.length (generateBonusPhrase random) = (2 * List.length random)%nat
  /\ Forall (fun c => is_Some (Js.hex_value c) /\ Js.lower_char c = c)
            (list_ascii_of_string (generateBonusPhrase random))
  /\ (List.length random = 16%nat -> String.length (generateBonusPhrase random) = 32%nat).
Proof.
  intros random. apply (generateBonusPhrase_hex random).
  repeat constructor; vm_compute; congruence.
Defined.

(** * The properties above on the fixtures *)

Lemma fixture_db_inv (a : Auth) : db_inv (Fixture.db_with a).
Proof.
  constructor; cbn [Fixture.db_with users auths user_seq].
  - lia.
  - intros id r [-> _]%lookup_singleton_Some. lia.
  - intros id r [_ <-]%lookup_singleton_Some. reflexivity.
  - intros i j ri rj [<- _]%lookup_singleton_Some [<- _]%lookup_singleton_Some _. reflexivity.
  - intros id r [<- _]%lookup_singleton_Some. rewrite lookup_singleton_eq. by eauto.
Qed.

Lemma fixture_state_inv (a : Auth) (o : Otplib.options) :
  state_inv (mkState (Fixture.db_with a) Fixture.authenticated o).
Proof.
  split; [apply fixture_db_inv|]. split.
  - intros id [= <-]. exists Fixture.user1. split; [apply lookup_singleton_eq|reflexivity].
  - intros id [=].
Qed.

Lemma login_case_insensitive_witness :
  post_auth Fixture.recover (Fixture.world Fixture.t0) initial_state
    (Fixture.login_body "login" (Fixture.sign "login") Fixture.walletAddress)
  = post_auth Fixture.recover (Fixture.world Fixture.t0) initial_state
      (Fixture.login_body "login" (Fixture.sign "login")
         "0xABC0000000000000000000000000000000000001").
Proof.
  apply (login_case_insensitive Fixture.recover (Fixture.world Fixture.t0) initial_state
           _ _ "login" (Fixture.sign "login") Fixture.walletAddress
           "0xABC0000000000000000000000000000000000001");
    reflexivity.
Defined.

Lemma first_login_creates_user_witness :
  let b := Fixture.login_body "login" (Fixture.sign "login") Fixture.walletAddress in
  let st' := fst (post_auth Fixture.recover (Fixture.world Fixture.t0) initial_state b) in
  let response := snd (post_auth Fixture.recover (Fixture.world Fixture.t0) initial_state b) in
  users (db st') = <[1 := mkUserRow (Js.toLowerCase Fixture.walletAddress) "user"]> ∅
  /\ auths (db st') = <[1 := mkAuth false false None]> ∅
  /\ user_seq (db st') = 1
  /\ messages (db st') = []
  /\ session st' = set_address (Some (Js.toLowerCase Fixture.walletAddress))
                     (set_userId (Some 1) empty_session)
  /\ status response = 200
  /\ Json.field "mfa" (body response) = Some (Json.Bool false)
  /\ Json.field "user" (body response)
     = Some (user_json (mkUser 1 (Js.toLowerCase Fixture.walletAddress) "user")).
Proof.
  intros b.
  apply (first_login_creates_user Fixture.recover (Fixture.world Fixture.t0) initial_state b
           (Fixture.sign "login") Fixture.walletAddress Fixture.walletAddress);
    reflexivity.
Defined.

Lemma login_existing_user_adds_no_row_witness :
  let st := mkState (Fixture.db_with (mkAuth false false None)) empty_session
                    Otplib.defaultOptions in
  let b := Fixture.login_body "login" (Fixture.sign "login") Fixture.walletAddress in
  let st' := fst (post_auth Fixture.recover (Fixture.world Fixture.t0) st b) in
  users (db st') = users (db st) /\ user_seq (db st') = user_seq (db st)
  /\ messages (db st') = messages (db st).
Proof.
  intros st b.
  apply (login_existing_user_adds_no_row Fixture.recover (Fixture.world Fixture.t0) st b
           "login" (Fixture.sign "login") Fixture.walletAddress 1 Fixture.user1);
    reflexivity.
Defined.

Lemma login_mfa_challenge_witness :
  let st := mkState (Fixture.db_with (mkAuth true false None)) empty_session
                    Otplib.defaultOptions in
  let b := Fixture.login_body "login" (Fixture.sign "login") Fixture.walletAddress in
  let st' := fst (post_auth Fixture.recover (Fixture.world Fixture.t0) st b) in
  let response := snd (post_auth Fixture.recover (Fixture.world Fixture.t0) st b) in
  exists uid row a,
    users (db st) !! uid = Some row
    /\ row_address row = Js.toLowerCase Fixture.walletAddress
    /\ auths (db st) !! uid = Some a
    /\ auth_mfa a = true
    /\ response = ok_response (Json.Obj
         [("success", Json.Bool true); ("mfa", Json.Bool true);
          ("mfa_bonus_phrase", Json.Str Fixture.bonusPhrase)])
    /\ pendingUserId (session st') = Some uid
    /\ mfaBonusPhrase (session st') = Some Fixture.bonusPhrase
    /\ auths (db st') !! uid
       = Some (mkAuth true (auth_awaitingMfa a) (Some (Fixture.t0 + 5 * 60 * 1000)))
    /\ users (db st') = users (db st)
    /\ authenticator_options st' = authenticator_options st.
Proof.
  intros st b.
  apply (login_mfa_challenge Fixture.recover (Fixture.world Fixture.t0) st b
           "login" (Fixture.sign "login") Fixture.walletAddress).
  - reflexivity.
  - vm_compute. reflexivity.
Defined.


Lemma mfa_login_round_trip_witness :
  let st := mkState (Fixture.db_with (mkAuth true false None)) empty_session
                    Otplib.defaultOptions in
  let b1 := Fixture.login_body "login" (Fixture.sign "login") Fixture.walletAddress in
  let w2 := Fixture.world (Fixture.t0 + 90000) in
  let b2 := Fixture.mfa_body (Fixture.code_at (Fixture.t0 + 30000)) Fixture.bonusPhrase in
  let st1 := fst (post_auth Fixture.recover (Fixture.world Fixture.t0) st b1) in
  let st2 := fst (post_mfa Fixture.salt w2 st1 b2) in
  status (snd (post_mfa Fixture.salt w2 st1 b2)) = 200
  /\ userId (session st2) = pendingUserId (session st1)
  /\ address (session st2) = Some (Js.toLowerCase Fixture.walletAddress)
  /\ holds_pending_fields (session st2) = false.
Proof.
  intros st b1 w2 b2.
  apply (mfa_login_round_trip Fixture.recover Fixture.salt (Fixture.world Fixture.t0) w2 st
           b1 b2 "login" (Fixture.sign "login") Fixture.walletAddress
           (Fixture.code_at (Fixture.t0 + 30000)) (-2)).
  - apply fixture_db_inv.
  - reflexivity.
  - vm_compute. reflexivity.
  - discriminate.
  - vm_compute. discriminate.
  - lia.
  - vm_compute. reflexivity.
  - reflexivity.
Defined.

Lemma mfa_initialize_succeeds_witness :
  let st := mkState (Fixture.db_with (mkAuth false false None)) Fixture.authenticated
                    Otplib.defaultOptions in
  let b := Fixture.sign_body "enableMFA" (Fixture.sign "enableMFA") in
  post_mfa_initialize Fixture.recover Fixture.salt Fixture.keyuri Fixture.toDataURL
    (Fixture.world Fixture.t0) st b
  = (with_db (mkDb (users (db st)) (<[1 := mkAuth false true None]> (auths (db st)))
                   (messages (db st)) (user_seq (db st))) st,
     ok_response (Json.Obj
       [("success", Json.Bool true);
        ("qrCode", Json.Str (default "" (Fixture.toDataURL
           (Fixture.keyuri (row_address Fixture.user1) "CAT Web3Signer"
              (generateMFASecret Fixture.salt (row_address Fixture.user1))))))])).
Proof.
  intros st b.
  apply (mfa_initialize_succeeds Fixture.recover Fixture.salt Fixture.keyuri Fixture.toDataURL
           (Fixture.world Fixture.t0) st b 1 Fixture.user1 (mkAuth false false None)
           (Json.Str (Fixture.sign "enableMFA")));
    [ reflexivity | discriminate | reflexivity | reflexivity | reflexivity | reflexivity
    | vm_compute; reflexivity | reflexivity ].
Defined.

Lemma enrollment_round_trip_witness :
  let st := mkState (Fixture.db_with (mkAuth false false None)) Fixture.authenticated
                    Otplib.defaultOptions in
  let b1 := Fixture.sign_body "enableMFA" (Fixture.sign "enableMFA") in
  let w2 := Fixture.world (Fixture.t0 + 20000) in
  let b2 := Fixture.code_body (Fixture.code_at (Fixture.t0 + 20000)) in
  let st1 := fst (post_mfa_initialize Fixture.recover Fixture.salt Fixture.keyuri
                    Fixture.toDataURL (Fixture.world Fixture.t0) st b1) in
  let st2 := fst (post_mfa_verify Fixture.salt w2 st1 b2) in
  status (snd (post_mfa_verify Fixture.salt w2 st1 b2)) = 200
  /\ exists a, auths (db st2) !! 1 = Some a
               /\ auth_mfa a = true /\ auth_awaitingMfa a = false.
Proof.
  intros st b1 w2 b2.
  apply (enrollment_round_trip Fixture.recover Fixture.salt Fixture.keyuri Fixture.toDataURL
           (Fixture.world Fixture.t0) w2 st b1 b2 1 Fixture.user1
           (Fixture.code_at (Fixture.t0 + 20000)));
    [ reflexivity | reflexivity | vm_compute; reflexivity | vm_compute; reflexivity
    | reflexivity ].
Defined.

Lemma consistent_state_never_404_witness :
  status (snd (handle Fixture.recover Fixture.salt Fixture.keyuri Fixture.toDataURL
                 (Fixture.world Fixture.t0)
                 (mkState (Fixture.db_with (mkAuth false false None)) Fixture.authenticated
                          Otplib.defaultOptions)
                 GetCurrentUser)) <> 404.
Proof.
  apply (consistent_state_never_404 Fixture.recover Fixture.salt Fixture.keyuri
           Fixture.toDataURL).
  apply fixture_state_inv.
Defined.

Lemma protected_routes_require_authentication_witness :
  let s := mkStore (mkState (Fixture.db_with (mkAuth false false None))
                            (mkSession (Some 0) (Some "0x") None None)
                            Otplib.defaultOptions) 0 in
  let b := Fixture.code_body "123456" in
  let st := store_state s in
  let denied := error_response 401 "Authentication required" in
  get_auth st = (st, denied)
  /\ post_mfa_initialize Fixture.recover Fixture.salt Fixture.keyuri Fixture.toDataURL
       (Fixture.world Fixture.t0) st b = (st, denied)
  /\ post_mfa_verify Fixture.salt (Fixture.world Fixture.t0) st b = (st, denied)
  /\ post_verify_signature Fixture.recover (Fixture.world Fixture.t0) s b = (s, denied)
  /\ post_verify_signature_multi Fixture.recover (Fixture.world Fixture.t0) s b = (s, denied).
Proof.
  intros s b.
  apply (protected_routes_require_authentication Fixture.recover Fixture.salt Fixture.keyuri
           Fixture.toDataURL (Fixture.world Fixture.t0) s b).
  reflexivity.
Defined.

Lemma logout_ends_the_session_witness :
  let st := mkState (Fixture.db_with (mkAuth false false None)) Fixture.authenticated
                    Otplib.defaultOptions in
  let w := Fixture.world Fixture.t0 in
  let b := Fixture.mfa_body "123456" Fixture.bonusPhrase in
  let st' := fst (post_logout w st) in
  let denied := error_response 401 "Authentication required" in
  session st' = empty_session
  /\ db st' = db st
  /\ authenticator_options st' = authenticator_options st
  /\ get_auth st' = (st', denied)
  /\ post_mfa_initialize Fixture.recover Fixture.salt Fixture.keyuri Fixture.toDataURL
       w st' b = (st', denied)
  /\ post_mfa_verify Fixture.salt w st' b = (st', denied)
  /\ (is_Some (MFAVerifySchema_parse b) ->
      post_mfa Fixture.salt w st' b
        = (st', error_response 401 "No pending MFA authentication"))
  /\ (storeError w = false -> post_logout w st' = post_logout w st).
Proof.
  intros st w b.
  apply (logout_ends_the_session Fixture.recover Fixture.salt Fixture.keyuri
           Fixture.toDataURL w w st b).
  reflexivity.
Defined.

(** The signature routes on the fixtures: one valid signature, then a batch
    whose second entry is malformed. *)
Example signature_routes_trace :
  let s := mkStore (mkState (Fixture.db_with (mkAuth false false None))
                            Fixture.authenticated Otplib.defaultOptions) 0 in
  let w := Fixture.world Fixture.t0 in
  let s1 := fst (post_verify_signature Fixture.recover w s
                   (Fixture.sign_body "hello" (Fixture.sign "hello"))) in
  let batch := Json.Arr [Fixture.sign_body "a" (Fixture.sign "a");
                         Fixture.sign_body "b" "0xbad"] in
  messages (db (store_state s1))
    = [mkMessage 1 1 "hello" (Fixture.sign "hello") Fixture.walletAddress true Fixture.t0]
  /\ post_verify_signature_multi Fixture.recover w s1 batch
     = (s1, error_response 400
              ("Failed to verify signature for message: " ++ dquote ++ "b" ++ dquote))
  /\ post_verify_signature_multi Fixture.recover w s1 (Json.Arr [])
     = (s1, error_response 400 "No signatures provided").
Proof. vm_compute. repeat split. Qed.

(** * Deleting a message *)

Section MessageRouteProperties.

Variable parseInt : string -> option Z.

(** X21. [DELETE /messages/:id] removes a message only when the session's
    user owns a message with that id: otherwise (no session, an id that
    does not parse, a message of another user, no such message) it changes
    nothing.  When it answers 200 the rows with that id are removed and
    nothing else; with unique ids that is exactly the one message the user
    owned, and every other message, of any user, is still there. *)
Theorem delete_message_only_own (st : State) (id_param : string) :
  let st' := fst (delete_message parseInt st id_param) in
  let response := snd (delete_message parseInt st id_param) in
  (status response <> 200 /\ st' = st)
  \/ (exists uid id m,
        userId (session st) = Some uid
        /\ parseInt id_param = Some id
        /\ In m (messages (db st)) /\ msg_id m = id /\ msg_userId m = uid
        /\ messages (db st')
           = List.filter (fun x => negb (msg_id x =? id)) (messages (db st))
        /\ users (db st') = users (db st)
        /\ auths (db st') = auths (db st)
        /\ session st' = session st
        /\ (NoDup (List.map msg_id (messages (db st))) ->
            forall x, In x (messages (db st)) -> x <> m -> In x (messages (db st')))).
Proof.
  cbv zeta. unfold delete_message, requireAuth.
  destruct (userId (session st)) as [uid|] eqn:Hu; [|left; by split].
  destruct (negb (Js.truthy_num (Some uid))); [left; by split|].
  destruct (parseInt id_param) as [id|]; [|left; by split].
  destruct (PrismaMessage.findFirst (db st) id uid) as [m|] eqn:Hf; [|left; by split].
  unfold PrismaMessage.delete.
  destruct (List.existsb _ _); [|left; by split].
  right. exists uid, id, m.
  apply List.find_some in Hf as [Hin Hm].
  apply andb_true_iff in Hm as [Hid Huid].
  apply Z.eqb_eq in Hid, Huid.
  cbn [fst snd with_db db session messages users auths].
  repeat split; try done.
  intros Hnodup x Hx Hne. apply List.filter_In. split; [exact Hx|].
  apply negb_true_iff, Z.eqb_neq. intros Hxid. apply Hne.
  clear -Hnodup Hin Hx Hid Hxid. rewrite <- Hid in Hxid. clear Hid.
  induction (messages (db st)) as [|y l IH]; [done|].
  cbn [List.map] in Hnodup. apply NoDup_cons in Hnodup as [Hy Hl].
  destruct Hin as [-> | Hin], Hx as [-> | Hx]; try done.
  - exfalso. apply Hy. rewrite list_elem_of_In, <- Hxid. by apply List.in_map.
  - exfalso. apply Hy. rewrite list_elem_of_In, Hxid. by apply List.in_map.
  - by apply IH.
Qed.

End MessageRouteProperties.

Example delete_message_of_another_user :
  let other := mkMessage 7 2 "theirs" "sig" "0xother" true Fixture.t0 in
  let mine := mkMessage 8 1 "mine" "sig" "0xme" true Fixture.t0 in
  let d := mkDb {[ 1 := Fixture.user1 ]} {[ 1 := mkAuth false false None ]} [mine; other] 1 in
  let st := mkState d Fixture.authenticated Otplib.defaultOptions in
  let parse := fun s : string => if String.eqb s "7" then Some 7 else
                                 if String.eqb s "8" then Some 8 else None in
  delete_message parse st "7" = (st, error_response 404 "Message not found")
  /\ delete_message parse st "x" = (st, error_response 400 "Invalid message ID")
  /\ messages (db (fst (delete_message parse st "8"))) = [other].
Proof. vm_compute. repeat split. Qed.
